(** * turbinia/lib/utils.py: extraction and password-cracking orchestration

    A shallow embedding of [turbinia.lib.utils]: the two [image_export.py]
    command builders, the runner [_image_export] that chooses between a
    container and a local [sudo] process, and [bruteforce_password_hashes]
    with its pot-file parser.

    Python strings are [string]s whose characters are the code points
    below 256; a Python [dict] is a [gmap]; exceptions are values of
    [exception] carried in the left summand of the result; the process
    wide state (configuration, file system, what was launched) is the
    record [World], threaded through the monad [M]. *)

From Stdlib Require Import ZArith Ascii String List Lia Bool.
From stdpp Require Import base option gmap strings pretty list fin_maps.
Import ListNotations.

Local Open Scope string_scope.
Local Open Scope Z_scope.

(** ** Python [str] methods used by the module *)

Module PyStr.

(** [bool(s)] for a string: the empty string is falsy. *)
Definition truthy (s : string) : bool :=
  match s with
  | EmptyString => false
  | String _ _ => true
  end.

(** [str.isspace] on one character (code points below 256):
    0x09-0x0d, 0x1c-0x20, 0x85 and 0xa0. *)
Definition isspace (c : ascii) : bool :=
  let n := N_of_ascii c in
  ((9 <=? n) && (n <=? 13))%N || ((28 <=? n) && (n <=? 32))%N
  || (n =? 133)%N || (n =? 160)%N.

(** [sep.join(items)] *)
Fixpoint join (sep : string) (items : list string) : string :=
  match items with
  | [] => ""
  | [x] => x
  | x :: rest => x ++ sep ++ join sep rest
  end.

(** [s.startswith(p)] *)
Fixpoint startswith (p s : string) : bool :=
  match p, s with
  | EmptyString, _ => true
  | String a p', String b s' => Ascii.eqb a b && startswith p' s'
  | String _ _, EmptyString => false
  end.

(** [sub in s]: [sub] occurs in [s] at some position. *)
Fixpoint contains (sub s : string) : bool :=
  startswith sub s ||
  match s with
  | EmptyString => false
  | String _ s' => contains sub s'
  end.

(** [s.endswith(c)] for a one-character suffix. *)
Fixpoint endswith_char (c : ascii) (s : string) : bool :=
  match s with
  | EmptyString => false
  | String a EmptyString => Ascii.eqb a c
  | String _ s' => endswith_char c s'
  end.

(** [s.rstrip()]: drop the trailing run of whitespace. *)
Fixpoint rstrip (s : string) : string :=
  match s with
  | EmptyString => EmptyString
  | String c s' =>
      match rstrip s' with
      | EmptyString => if isspace c then EmptyString else String c EmptyString
      | r => String c r
      end
  end.

(** [s.split(c)] for a one-character separator: every occurrence of
    the separator cuts, empty fields are kept, and the empty string
    gives one empty field. *)
Fixpoint split (c : ascii) (s : string) : list string :=
  match s with
  | EmptyString => [EmptyString]
  | String a s' =>
      if Ascii.eqb a c then EmptyString :: split c s'
      else match split c s' with
           | [] => [String a EmptyString]
           | f :: fs => String a f :: fs
           end
  end.

(** [s.rsplit(c, 1)] for a one-character separator: one cut at the
    last occurrence of the separator, or the whole string alone when
    the separator does not occur. *)
Fixpoint rcut (c : ascii) (s : string) : option (string * string) :=
  match s with
  | EmptyString => None
  | String a s' =>
      match rcut c s' with
      | Some (h, t) => Some (String a h, t)
      | None => if Ascii.eqb a c then Some (EmptyString, s') else None
      end
  end.

Definition rsplit1 (c : ascii) (s : string) : list string :=
  match rcut c s with
  | Some (h, t) => [h; t]
  | None => [s]
  end.

(** [s.lower()] on the ASCII letters. *)
Definition lower_char (c : ascii) : ascii :=
  let n := N_of_ascii c in
  if ((65 <=? n) && (n <=? 90))%N then ascii_of_N (n + 32) else c.

Fixpoint lower (s : string) : string :=
  match s with
  | EmptyString => EmptyString
  | String c s' => String (lower_char c) (lower s')
  end.

(** [s.split()] with no argument: fields are the maximal runs of
    characters that are not whitespace. Used only to state what
    whitespace tokenisation would give; the module never calls it. *)
Fixpoint split_whitespace_aux (cur : string) (s : string) : list string :=
  match s with
  | EmptyString => if truthy cur then [cur] else []
  | String a s' =>
      if isspace a
      then (if truthy cur then [cur] else []) ++ split_whitespace_aux EmptyString s'
      else split_whitespace_aux (cur ++ String a EmptyString) s'
  end.

Definition split_whitespace (s : string) : list string :=
  split_whitespace_aux EmptyString s.

(** Iterating over a file opened in text mode: universal newlines
    turn "\r\n" and a lone "\r" into "\n", and each line keeps its
    final "\n" (the last line may lack one). *)
Definition LF : ascii := ascii_of_N 10.
Definition CR : ascii := ascii_of_N 13.

Fixpoint universal_newlines (s : string) : string :=
  match s with
  | EmptyString => EmptyString
  | String a s' =>
      if Ascii.eqb a CR then
        match s' with
        | String b s'' =>
            if Ascii.eqb b LF then String LF (universal_newlines s'')
            else String LF (universal_newlines s')
        | EmptyString => String LF EmptyString
        end
      else String a (universal_newlines s')
  end.

Fixpoint lines_keepends (s : string) : list string :=
  match s with
  | EmptyString => []
  | String a s' =>
      if Ascii.eqb a LF then String a EmptyString :: lines_keepends s'
      else match lines_keepends s' with
           | [] => [String a EmptyString]
           | l :: ls => String a l :: ls
           end
  end.

Definition file_lines (content : string) : list string :=
  lines_keepends (universal_newlines content).

End PyStr.

(** ** Values, exceptions and the world *)

(** The Python values that flow through the dependency registry and
    into [str.format]. *)
Inductive pyval : Type :=
| PNone
| PStr (s : string)
| PInt (z : Z)
| PList (items : list string).

Definition is_None (v : pyval) : bool :=
  match v with
  | PNone => true
  | _ => false
  end.

Inductive exception : Type :=
| TurbiniaException (message : string)
| CalledProcessError (returncode : Z) (cmd : list string)
| TimeoutExpired (cmd : list string) (timeout : Z)
| OSError (strerror : string)
| ValueError (message : string)
| TypeError (message : string)
| AttributeError (message : string).

(** How a child process ends: it exits with a status, it is still
    running when the timeout expires, or it cannot be started. *)
Inductive proc_outcome : Type :=
| Exited (returncode : Z)
| TimedOut
| NotStarted (strerror : string).

(** What the module asks of the outside world, in order. *)
Inductive event : Type :=
| CheckCall (cmd : list string) (timeout : Z)
| Popen (cmd : list string) (timeout : Z)
| ExecuteContainer (image : pyval) (cmd : list string)
    (ro_paths rw_paths : list string) (timeout_limit : pyval).

(** [config.DOCKER_ENABLED], the dictionary [config.ParseDependencies()]
    returns, the regular files by path, and the launches so far. *)
Record World : Type := mkWorld {
  DOCKER_ENABLED : bool;
  dependencies : gmap string (gmap string pyval);
  files : gmap string string;
  trace : list event
}.

Definition set_files (fs : gmap string string) (w : World) : World :=
  mkWorld (DOCKER_ENABLED w) (dependencies w) fs (trace w).

Definition log_event (e : event) (w : World) : World :=
  mkWorld (DOCKER_ENABLED w) (dependencies w) (files w) (trace w ++ [e]).

(** ** State and exception monad *)

Definition M (A : Type) : Type := World -> (exception + A) * World.

Definition ret {A} (a : A) : M A := fun w => (inr a, w).

Definition raise {A} (e : exception) : M A := fun w => (inl e, w).

Definition bind {A B} (c : M A) (k : A -> M B) : M B :=
  fun w =>
    match c w with
    | (inr a, w') => k a w'
    | (inl e, w') => (inl e, w')
    end.

(** [try: c  except ...: handler] *)
Definition catch {A} (c : M A) (handler : exception -> M A) : M A :=
  fun w =>
    match c w with
    | (inr a, w') => (inr a, w')
    | (inl e, w') => handler e w'
    end.

Definition lift {A} (r : exception + A) : M A :=
  match r with
  | inl e => raise e
  | inr a => ret a
  end.

Notation "'do' x <- c ;; k" := (bind c (fun x => k))
  (at level 10, x pattern, c at level 99, k at level 200).

(** [dict.get(k)]: the value, or [None] when the key is absent. *)
Definition dict_get (d : gmap string pyval) (k : string) : pyval :=
  default PNone (d !! k).

(** [bool(d)] for a dictionary: only the empty one is falsy. *)
Definition dict_truthy (d : gmap string pyval) : bool :=
  negb (bool_decide (d = ∅)).

(** [format(v, 's')]: only a [str] accepts the [s] presentation type. *)
Definition format_s (v : pyval) : exception + string :=
  match v with
  | PStr s => inr s
  | PInt _ => inl (ValueError "Unknown format code 's' for object of type 'int'")
  | PNone => inl (TypeError "unsupported format string passed to NoneType.__format__")
  | PList _ => inl (TypeError "unsupported format string passed to list.__format__")
  end.

(** [os.path.join(a, b)] on POSIX. *)
Definition path_join (a b : string) : string :=
  if PyStr.startswith "/" b then b
  else if negb (PyStr.truthy a) || PyStr.endswith_char "/" a then a ++ b
  else a ++ "/" ++ b.

Definition DEFAULT_TIMEOUT : Z := 7200.

Definition job_name : string := PyStr.lower "FileArtifactExtractionJob".

(** [str(e)] for the exceptions whose text this module or its callers
    fix; the text of the two [subprocess] exceptions is Python's. *)
Definition str_exception (str_subprocess_error : exception -> string)
    (e : exception) : string :=
  match e with
  | TurbiniaException m => m
  | OSError m => m
  | ValueError m => m
  | TypeError m => m
  | AttributeError m => m
  | CalledProcessError _ _ => str_subprocess_error e
  | TimeoutExpired _ _ => str_subprocess_error e
  end.

(** ** The module, over its collaborators *)

Section Utils.

(** Python's and the operating system's side of the interface: the
    home-directory expansion, the temporary directory and the name a
    fresh temporary file gets, what a launched process does to the
    files and how it ends, the container manager of
    [turbinia.lib.docker_manager], the directory walk, and the text
    of the [subprocess] exceptions. *)
Variable expanduser : string -> string.
Variable gettempdir : string.
Variable temp_name : gmap string string -> string.
Variable run_process :
  list string -> Z -> gmap string string -> proc_outcome * gmap string string.
Variable ContainerManager_init : pyval -> option exception.
Variable container_run :
  pyval -> list string -> list string -> list string -> pyval ->
  gmap string string -> (exception + (string * string * Z)) * gmap string string.
Variable os_walk :
  gmap string string -> string -> list (string * list string * list string).
Variable str_subprocess_error : exception -> string.

Definition str_exc : exception -> string := str_exception str_subprocess_error.

(** [subprocess.check_call(cmd, timeout=timeout)] *)
Definition check_call (cmd : list string) (timeout : Z) : M Z :=
  fun w =>
    let '(outcome, fs) := run_process cmd timeout (files w) in
    let w' := set_files fs (log_event (CheckCall cmd timeout) w) in
    match outcome with
    | Exited rc =>
        if rc =? 0 then (inr 0, w') else (inl (CalledProcessError rc cmd), w')
    | TimedOut => (inl (TimeoutExpired cmd timeout), w')
    | NotStarted err => (inl (OSError err), w')
    end.

(** [docker_manager.ContainerManager(docker_image)] *)
Definition ContainerManager (docker_image : pyval) : M unit :=
  match ContainerManager_init docker_image with
  | Some e => raise e
  | None => ret tt
  end.

(** [container_manager.execute_container(command, shell=False,
    ro_paths=..., rw_paths=..., timeout_limit=...)] *)
Definition execute_container (docker_image : pyval) (command : list string)
    (ro_paths rw_paths : list string) (timeout_limit : pyval)
    : M (string * string * Z) :=
  fun w =>
    let '(r, fs) :=
      container_run docker_image command ro_paths rw_paths timeout_limit (files w) in
    (r, set_files fs
          (log_event
             (ExecuteContainer docker_image command ro_paths rw_paths timeout_limit) w)).

(** The double loop over [os.walk(output_dir)]. *)
Definition collect_files (walk : list (string * list string * list string))
    : list string :=
  fold_left
    (fun collected '(dirpath, _, filenames) =>
       fold_left
         (fun collected filename => (collected ++ [path_join dirpath filename])%list)
         filenames collected)
    walk [].

Definition walk_output_dir (output_dir : string) : M (list string) :=
  fun w => (inr (collect_files (os_walk (files w) output_dir)), w).

Definition _image_export (command : list string) (output_dir disk_path : string)
    (timeout : Z) : M (list string) :=
  fun w =>
    let dependencies := dependencies w in
    let docker_image :=
      match dependencies !! job_name with
      | Some entry => if dict_truthy entry then dict_get entry "docker_image" else PNone
      | None => PNone
      end in
    (do _ <-
       (if DOCKER_ENABLED w && negb (is_None docker_image) then
         (let ro_paths := [disk_path] in
          let rw_paths := [output_dir] in
          do _ <- ContainerManager docker_image ;;
          do _ <- lift
               (match format_s (PList command) with
                | inl e => inl e
                | inr c =>
                    match format_s docker_image with
                    | inl e => inl e
                    | inr i => inr ("Executing job " ++ c ++ " in container: " ++ i)
                    end
                end) ;;
          do job_timeout <-
               match dependencies !! job_name with
               | Some entry => ret (dict_get entry "timeout")
               | None => raise (AttributeError "'NoneType' object has no attribute 'get'")
               end ;;
          let job_timeout := if is_None job_timeout then PInt timeout else job_timeout in
          do _ <- execute_container docker_image command ro_paths rw_paths job_timeout ;;
          ret tt)
        else
          let command := "sudo" :: command in
          catch (do _ <- check_call command timeout ;; ret tt)
            (fun exception =>
               match exception with
               | CalledProcessError _ _ =>
                   raise (TurbiniaException
                            ("image_export.py failed: " ++ str_exc exception))
               | TimeoutExpired _ _ =>
                   raise (TurbiniaException
                            ("image_export.py timed out after " ++ pretty timeout
                             ++ "s: " ++ str_exc exception))
               | _ => raise exception
               end)) ;;
     walk_output_dir output_dir) w.

(** The [--credential] loop shared by both builders. *)
Definition extend_credentials (image_export_cmd : list string)
    (credentials : list (string * string)) : list string :=
  match credentials with
  | [] => image_export_cmd
  | _ =>
      fold_left
        (fun cmd '(credential_type, credential_data) =>
           (cmd ++ ["--credential"; (credential_type ++ ":" ++ credential_data)%string])%list)
        credentials image_export_cmd
  end.

(** The list [extract_artifacts] hands to [_image_export]. *)
Definition artifacts_command (artifact_names : list string)
    (disk_path output_dir : string) (credentials : list (string * string))
    : list string :=
  let artifacts := PyStr.join "," artifact_names in
  let image_export_cmd :=
    ["image_export.py"; "--artifact_filters"; artifacts; "--write"; output_dir;
     "--partitions"; "all"; "--volumes"; "all"; "--unattended"] in
  let image_export_cmd := extend_credentials image_export_cmd credentials in
  (image_export_cmd ++ [disk_path])%list.

Definition extract_artifacts (artifact_names : list string)
    (disk_path output_dir : string) (credentials : list (string * string))
    : M (list string) :=
  _image_export (artifacts_command artifact_names disk_path output_dir credentials)
    output_dir disk_path DEFAULT_TIMEOUT.

(** The list [extract_files] hands to [_image_export]. *)
Definition files_command (file_name disk_path output_dir : string)
    (credentials : list (string * string)) : list string :=
  let image_export_cmd :=
    ["image_export.py"; "--name"; file_name; "--write"; output_dir;
     "--partitions"; "all"; "--volumes"; "all"] in
  let image_export_cmd := extend_credentials image_export_cmd credentials in
  (image_export_cmd ++ [disk_path])%list.

Definition extract_files (file_name disk_path output_dir : string)
    (credentials : list (string * string)) : M (list string) :=
  if negb (PyStr.truthy disk_path) then
    raise (TurbiniaException
             "image_export.py failed: Attempted to run with no local_path")
  else
    _image_export (files_command file_name disk_path output_dir credentials)
      output_dir disk_path DEFAULT_TIMEOUT.

(** [os.path.isfile(path)] *)
Definition isfile (path : string) : M bool :=
  fun w =>
    (inr (match files w !! path with Some _ => true | None => false end), w).

(** [with tempfile.NamedTemporaryFile(delete=False, mode='w+') as f:]
    take the file's name and write [content] to it. *)
Definition write_temporary_file (content : string) : M string :=
  fun w =>
    let name := temp_name (files w) in
    (inr name, set_files (<[name := content]> (files w)) w).

(** [open(path, 'r')] and the lines the file object iterates over. *)
Definition read_lines (path : string) : M (list string) :=
  fun w =>
    match files w !! path with
    | Some content => (inr (PyStr.file_lines content), w)
    | None => (inl (OSError "No such file or directory"), w)
    end.

(** [os.remove(path)] *)
Definition os_remove (path : string) : M unit :=
  fun w =>
    match files w !! path with
    | Some _ => (inr tt, set_files (delete path (files w)) w)
    | None => (inl (OSError "No such file or directory"), w)
    end.

(** [subprocess.Popen(cmd, ...)], the [threading.Timer] that
    terminates the child after [timeout] seconds, and
    [child.communicate()]: a child that exits and a child that is
    terminated both let the call return. *)
Definition popen_communicate (cmd : list string) (timeout : Z) : M unit :=
  fun w =>
    let '(outcome, fs) := run_process cmd timeout (files w) in
    let w' := set_files fs (log_event (Popen cmd timeout) w) in
    match outcome with
    | NotStarted err => (inl (OSError err), w')
    | Exited _ => (inr tt, w')
    | TimedOut => (inr tt, w')
    end.

(** The choice between john and hashcat: the command and the pot
    file that goes with it. *)
Definition select_tool (password_hashes : list string) (extra_args : string)
    (pot_file password_hashes_file_path password_list_file_path
       password_rules_file_path : string) : list string * string :=
  if PyStr.contains "$y$" (PyStr.join "" password_hashes) then
    let cmd :=
      ["john"; "--format=crypt"; "--wordlist=" ++ password_list_file_path;
       password_hashes_file_path] in
    (cmd, expanduser "~/.john/john.pot")
  else
    let cmd := ["hashcat"; "--force"; "-a"; "0"] in
    let cmd :=
      if PyStr.truthy extra_args then (cmd ++ PyStr.split " " extra_args)%list
      else cmd in
    let cmd := (cmd ++ [("--potfile-path=" ++ pot_file)%string])%list in
    let cmd := (cmd ++ [password_hashes_file_path; password_list_file_path])%list in
    let cmd := (cmd ++ ["-r"; password_rules_file_path])%list in
    (cmd, pot_file).

(** The loop over the lines of the pot file. *)
Fixpoint parse_pot_lines (lines : list string) (result : list (string * string))
    : exception + list (string * string) :=
  match lines with
  | [] => inr result
  | line :: rest =>
      match PyStr.rsplit1 ":" line with
      | [password_hash; plaintext] =>
          let plaintext := PyStr.rstrip plaintext in
          if PyStr.truthy plaintext
          then parse_pot_lines rest (result ++ [(password_hash, plaintext)])%list
          else parse_pot_lines rest result
      | _ => inl (ValueError "not enough values to unpack (expected 2, got 1)")
      end
  end.

(** The wordlist after the fallback. *)
Definition resolve_password_list : M string :=
  let password_list_file_path := expanduser "~/password.lst" in
  do found <- isfile password_list_file_path ;;
  ret (if negb found then "/usr/share/john/password.lst"
       else password_list_file_path).

(** Everything up to the choice of the tool: the hash file, the
    wordlist and rules file, and the command with its pot file. *)
Definition prepare_crack (password_hashes : list string) (tmp_dir : string)
    (extra_args : string) : M (list string * string) :=
  do password_hashes_file_path <-
       write_temporary_file (PyStr.join (String PyStr.LF "") password_hashes) ;;
  let pot_file :=
    path_join (if PyStr.truthy tmp_dir then tmp_dir else gettempdir) "hashcat.pot" in
  let password_rules_file_path := expanduser "~/turbinia-password-cracking.rules" in
  do password_list_file_path <- resolve_password_list ;;
  do found <- isfile password_list_file_path ;;
  if negb found then raise (TurbiniaException "No password list available")
  else
    do found <- isfile password_rules_file_path ;;
    do password_rules_file_path <-
         (if negb found
          then write_temporary_file (PyStr.join (String PyStr.LF "") [":"; "d"])
          else ret password_rules_file_path) ;;
    ret (select_tool password_hashes extra_args pot_file password_hashes_file_path
           password_list_file_path password_rules_file_path).

(** The [try] block around the child process. *)
Definition run_cracker (cmd : list string) (timeout : Z) : M unit :=
  catch (popen_communicate cmd timeout)
    (fun exception =>
       match exception with
       | OSError _ =>
           raise (TurbiniaException
                    (PyStr.join " " cmd ++ " failed: " ++ str_exc exception))
       | _ => raise exception
       end).

(** Reading the pot file back, and removing it. *)
Definition read_pot_file (pot_file : string) : M (list (string * string)) :=
  do found <- isfile pot_file ;;
  if found then
    do lines <- read_lines pot_file ;;
    do result <- lift (parse_pot_lines lines []) ;;
    do _ <- os_remove pot_file ;;
    ret result
  else ret [].

Definition bruteforce_password_hashes (password_hashes : list string)
    (tmp_dir : string) (timeout : Z) (extra_args : string)
    : M (list (string * string)) :=
  do (cmd, pot_file) <- prepare_crack password_hashes tmp_dir extra_args ;;
  do _ <- run_cracker cmd timeout ;;
  read_pot_file pot_file.

End Utils.

(** ** Notions the statements below are phrased with *)

(** The image the registry gives for this job, if any. *)
Definition job_docker_image (w : World) : pyval :=
  match dependencies w !! job_name with
  | Some entry => dict_get entry "docker_image"
  | None => PNone
  end.

(** The job-specific timeout of the registry, if any. *)
Definition job_timeout_override (w : World) : pyval :=
  match dependencies w !! job_name with
  | Some entry => dict_get entry "timeout"
  | None => PNone
  end.

(** Docker is enabled and the job has an image. *)
Definition containerized (w : World) : bool :=
  DOCKER_ENABLED w && negb (is_None (job_docker_image w)).

Definition has_file (w : World) (path : string) : bool :=
  match files w !! path with Some _ => true | None => false end.

(** One [--credential] pair. *)
Definition credential_args (credential : string * string) : list string :=
  ["--credential"; fst credential ++ ":" ++ snd credential].

(** The paths below every directory triple of a walk. *)
Definition walked_paths (walk : list (string * list string * list string))
    : list string :=
  flat_map (fun '(dirpath, _, filenames) => map (path_join dirpath) filenames) walk.

(** The result of a local run, by the way the process ends. *)
Definition local_result
    (run_process :
       list string -> Z -> gmap string string -> proc_outcome * gmap string string)
    (os_walk :
       gmap string string -> string -> list (string * list string * list string))
    (str_subprocess_error : exception -> string)
    (command : list string) (output_dir : string)
    (timeout : Z) (w : World) : (exception + list string) * World :=
  let sudo_command := "sudo" :: command in
  let '(outcome, fs) := run_process sudo_command timeout (files w) in
  let w' := set_files fs (log_event (CheckCall sudo_command timeout) w) in
  match outcome with
  | Exited rc =>
      if rc =? 0 then (inr (walked_paths (os_walk fs output_dir)), w')
      else (inl (TurbiniaException
                   ("image_export.py failed: "
                    ++ str_exc str_subprocess_error
                         (CalledProcessError rc sudo_command))), w')
  | TimedOut =>
      (inl (TurbiniaException
              ("image_export.py timed out after " ++ pretty timeout ++ "s: "
               ++ str_exc str_subprocess_error
                    (TimeoutExpired sudo_command timeout))), w')
  | NotStarted err => (inl (OSError err), w')
  end.

(** A line of the pot file that [rsplit] can cut: it has a colon. *)
Definition has_colon (line : string) : bool := PyStr.contains ":" line.

(** What well-formed lines contribute to the result, in order. *)
Fixpoint cracked_pairs (lines : list string) : list (string * string) :=
  match lines with
  | [] => []
  | line :: rest =>
      match PyStr.rcut ":" line with
      | Some (password_hash, plaintext) =>
          if PyStr.truthy (PyStr.rstrip plaintext)
          then (password_hash, PyStr.rstrip plaintext) :: cracked_pairs rest
          else cracked_pairs rest
      | None => cracked_pairs rest
      end
  end.

(** The tool selection in the words of the specification: john when
    some input hash contains the marker, otherwise hashcat with the
    extra arguments split at whitespace. *)
Definition claimed_select_tool (john_pot : string) (password_hashes : list string)
    (extra_args : string)
    (pot_file password_hashes_file_path password_list_file_path
       password_rules_file_path : string) : list string * string :=
  if existsb (PyStr.contains "$y$") password_hashes then
    (["john"; "--format=crypt"; "--wordlist=" ++ password_list_file_path;
      password_hashes_file_path], john_pot)
  else
    ((["hashcat"; "--force"; "-a"; "0"] ++ PyStr.split_whitespace extra_args
       ++ [("--potfile-path=" ++ pot_file)%string; password_hashes_file_path;
           password_list_file_path; "-r"; password_rules_file_path])%list,
     pot_file).

(** The world once the hash file has been written, the wordlist and
    rules file [bruteforce_password_hashes] settles on in it, and the
    world once a missing rules file has been replaced. *)
Section CrackPaths.

Variable expanduser : string -> string.
Variable gettempdir : string.
Variable temp_name : gmap string string -> string.

Definition hashes_written (password_hashes : list string) (w : World) : World :=
  set_files
    (<[temp_name (files w) := String.concat (String PyStr.LF "") password_hashes]>
       (files w)) w.

Definition password_list_path (w : World) : string :=
  if has_file w (expanduser "~/password.lst") then expanduser "~/password.lst"
  else "/usr/share/john/password.lst".

Definition rules_path (w : World) : string :=
  if has_file w (expanduser "~/turbinia-password-cracking.rules")
  then expanduser "~/turbinia-password-cracking.rules"
  else temp_name (files w).

Definition rules_written (w : World) : World :=
  if has_file w (expanduser "~/turbinia-password-cracking.rules") then w
  else set_files
         (<[temp_name (files w) := ":" ++ String PyStr.LF "d"]> (files w)) w.

Definition hashcat_pot_file (tmp_dir : string) : string :=
  path_join (if PyStr.truthy tmp_dir then tmp_dir else gettempdir) "hashcat.pot".

End CrackPaths.

(** ** [get_exe_path] *)

(** [os.environ['PATH']] on an environment without the key. *)
Inductive key_error : Type :=
| KeyError (key : string).

(** The loop of [get_exe_path] over the directories of [PATH]:
    [path_exists] is [os.path.exists]. *)
Fixpoint search_path (path_exists : string -> bool) (filename : string)
    (paths : list string) : option string :=
  match paths with
  | [] => None
  | path :: rest =>
      let tentative_path := path_join path filename in
      if path_exists tentative_path then Some tentative_path
      else search_path path_exists filename rest
  end.

(** [os.pathsep] on POSIX. *)
Definition pathsep : ascii := ":".

Definition get_exe_path (path_exists : string -> bool)
    (environ : gmap string string) (filename : string)
    : key_error + option string :=
  match environ !! "PATH" with
  | None => inl (KeyError "PATH")
  | Some PATH => inr (search_path path_exists filename (PyStr.split pathsep PATH))
  end.

(** ** Concrete collaborators and worlds, for the closed examples *)

Module Sample.

Definition expanduser (path : string) : string :=
  match path with
  | String "~" rest => "/home/turbinia" ++ rest
  | _ => path
  end.

Definition gettempdir : string := "/tmp".

Definition temp_name (fs : gmap string string) : string :=
  match fs !! "/tmp/tmpa1" with
  | None => "/tmp/tmpa1"
  | Some _ =>
      match fs !! "/tmp/tmpb2" with
      | None => "/tmp/tmpb2"
      | Some _ => "/tmp/tmpc3"
      end
  end.

(** A tool that ends as [outcome] after writing [content] to [path]. *)
Definition writes (path content : string) (outcome : proc_outcome)
    (cmd : list string) (timeout : Z) (fs : gmap string string)
    : proc_outcome * gmap string string :=
  (outcome, <[path := content]> fs).

(** A tool that ends as [outcome] and leaves the files alone. *)
Definition ends (outcome : proc_outcome)
    (cmd : list string) (timeout : Z) (fs : gmap string string)
    : proc_outcome * gmap string string :=
  (outcome, fs).

Definition ContainerManager_init (image : pyval) : option exception := None.

Definition container_run (image : pyval) (cmd ro_paths rw_paths : list string)
    (timeout_limit : pyval) (fs : gmap string string)
    : (exception + (string * string * Z)) * gmap string string :=
  (inr ("", "", 0), fs).

Definition os_walk (fs : gmap string string) (top : string)
    : list (string * list string * list string) :=
  match fs !! (top ++ "/etc/passwd") with
  | Some _ => [(top, ["etc"], []); (top ++ "/etc", [], ["passwd"])]
  | None => [(top, [], [])]
  end.

Definition str_subprocess_error (e : exception) : string :=
  match e with
  | CalledProcessError rc _ => "Command returned non-zero exit status " ++ pretty rc
  | TimeoutExpired _ t => "Command timed out after " ++ pretty t ++ " seconds"
  | _ => ""
  end.

(** No docker, an empty registry, the system wordlist installed. *)
Definition local_world : World :=
  mkWorld false ∅ {[ "/usr/share/john/password.lst" := "123456" ]} [].

(** Docker enabled and an image with a timeout registered for the job. *)
Definition docker_world : World :=
  mkWorld true
    {[ job_name := {[ "docker_image" := PStr "log2timeline/plaso";
                      "timeout" := PInt 600 ]} ]}
    ∅ [].

(** The user's wordlist and the system one are both installed. *)
Definition both_lists_world : World :=
  mkWorld false ∅
    {[ "/home/turbinia/password.lst" := "letmein";
       "/usr/share/john/password.lst" := "123456" ]} [].

(** No wordlist anywhere. *)
Definition bare_world : World := mkWorld false ∅ ∅ [].

Definition image_export (run : list string -> Z -> gmap string string ->
                               proc_outcome * gmap string string) :=
  _image_export run ContainerManager_init container_run os_walk str_subprocess_error.

Definition artifacts (run : list string -> Z -> gmap string string ->
                            proc_outcome * gmap string string) :=
  extract_artifacts run ContainerManager_init container_run os_walk
    str_subprocess_error.

Definition crack (run : list string -> Z -> gmap string string ->
                        proc_outcome * gmap string string) :=
  bruteforce_password_hashes expanduser gettempdir temp_name run
    str_subprocess_error.

Definition prepare :=
  prepare_crack expanduser gettempdir temp_name.

End Sample.

(** A search path with two directories, and a file system where
    hashcat is installed in the second and in a directory that is not
    on the path. *)
Module SampleEnv.

Definition environ : gmap string string :=
  {[ "PATH" := "/usr/local/bin:/usr/bin"; "HOME" := "/home/turbinia" ]}.

Definition no_path : gmap string string := {[ "HOME" := "/home/turbinia" ]}.

Definition path_exists (path : string) : bool :=
  String.eqb path "/usr/bin/hashcat" || String.eqb path "/opt/hashcat/hashcat"
  || String.eqb path "john".

(** Docker enabled, but the registry entry of the job names no image. *)
Definition no_image_world : World :=
  mkWorld true {[ job_name := {[ "timeout" := PInt 600 ]} ]} ∅ [].

End SampleEnv.

(** ** Facts about the string functions *)

Lemma join_is_concat (sep : string) (items : list string) :
  PyStr.join sep items = String.concat sep items.
Proof.
  induction items as [|x rest IH]; [reflexivity|].
  destruct rest as [|y rest]; [reflexivity|].
  simpl in *. now rewrite IH.
Qed.

Lemma startswith_app (p s t : string) :
  PyStr.startswith p s = true -> PyStr.startswith p (s ++ t) = true.
Proof.
  revert s; induction p as [|a p IH]; intros s H; [reflexivity|].
  destruct s as [|b s]; simpl in *; [discriminate|].
  apply andb_true_iff in H as [Hab Hps].
  rewrite Hab. simpl. auto.
Qed.

Lemma contains_app_r (sub s t : string) :
  PyStr.contains sub s = true -> PyStr.contains sub (s ++ t) = true.
Proof.
  induction s as [|a s IH]; intros H.
  - simpl in H. rewrite orb_false_r in H.
    destruct sub; [|discriminate]. destruct t; reflexivity.
  - cbn [PyStr.contains] in H. apply orb_true_iff in H as [H|H].
    + change (String a s ++ t) with (String a (s ++ t)).
      cbn [PyStr.contains]. apply orb_true_iff. left.
      now apply (startswith_app sub (String a s) t).
    + change (String a s ++ t) with (String a (s ++ t)).
      cbn [PyStr.contains]. apply orb_true_iff. right. auto.
Qed.

Lemma contains_app_l (sub s t : string) :
  PyStr.contains sub t = true -> PyStr.contains sub (s ++ t) = true.
Proof.
  intros H. induction s as [|a s IH]; [exact H|].
  change (String a s ++ t) with (String a (s ++ t)).
  cbn [PyStr.contains]. apply orb_true_iff. now right.
Qed.

(** A marker inside one of the items is inside their concatenation. *)
Lemma contains_join_empty (sub : string) (items : list string) :
  existsb (PyStr.contains sub) items = true ->
  PyStr.contains sub (PyStr.join "" items) = true.
Proof.
  induction items as [|x rest IH]; [discriminate|].
  intros H. cbn [existsb] in H. apply orb_true_iff in H as [H|H].
  - destruct rest as [|y rest]; [exact H|].
    cbn [PyStr.join]. now apply contains_app_r.
  - destruct rest as [|y rest]; [discriminate|].
    cbn [PyStr.join]. apply contains_app_l. apply contains_app_l. auto.
Qed.

(** [rcut] finds no cut exactly when the separator does not occur. *)
Lemma rcut_none_iff (c : ascii) (s : string) :
  PyStr.rcut c s = None <-> PyStr.contains (String c "") s = false.
Proof.
  induction s as [|a s IH].
  - simpl. split; reflexivity.
  - cbn [PyStr.rcut PyStr.contains PyStr.startswith].
    rewrite (Ascii.eqb_sym c a).
    destruct (PyStr.rcut c s) as [[h t]|], (PyStr.contains (String c "") s).
    + rewrite orb_true_r. split; discriminate.
    + destruct IH as [_ IH]. specialize (IH eq_refl). discriminate.
    + destruct IH as [IH _]. specialize (IH eq_refl). discriminate.
    + rewrite orb_false_r.
      destruct (Ascii.eqb a c); simpl; split; congruence.
Qed.


Lemma rsplit1_cases (c : ascii) (s : string) :
  (exists h t, PyStr.rcut c s = Some (h, t) /\ PyStr.rsplit1 c s = [h; t]) \/
  (PyStr.rcut c s = None /\ PyStr.rsplit1 c s = [s]).
Proof.
  unfold PyStr.rsplit1. destruct (PyStr.rcut c s) as [[h t]|]; eauto.
Qed.

(** [split] cuts at every separator and nowhere else: joining the
    fields with the separator gives the string back, and no field
    contains the separator. *)
Lemma split_nonempty (c : ascii) (s : string) : PyStr.split c s <> [].
Proof.
  destruct s as [|a s]; simpl; [discriminate|].
  destruct (Ascii.eqb a c); [discriminate|].
  destruct (PyStr.split c s); discriminate.
Qed.

Lemma split_concat (c : ascii) (s : string) :
  String.concat (String c "") (PyStr.split c s) = s.
Proof.
  induction s as [|a s IH]; [reflexivity|].
  cbn [PyStr.split].
  pose proof (split_nonempty c s) as Hne.
  destruct (Ascii.eqb_spec a c) as [->|Hac].
  - destruct (PyStr.split c s) as [|f fs]; [contradiction|].
    cbn [String.concat]. cbn [String.concat] in IH. rewrite IH. reflexivity.
  - destruct (PyStr.split c s) as [|f fs]; [contradiction|].
    destruct fs as [|g fs]; cbn [String.concat] in *.
    + now rewrite IH.
    + rewrite <- IH. reflexivity.
Qed.

Lemma split_fields (c : ascii) (s : string) :
  Forall (fun field => PyStr.contains (String c "") field = false) (PyStr.split c s).
Proof.
  induction s as [|a s IH]; [repeat constructor|].
  cbn [PyStr.split].
  destruct (Ascii.eqb a c) eqn:Hac.
  - constructor; [reflexivity|exact IH].
  - destruct (PyStr.split c s) as [|f fs]; [repeat constructor|].
    + cbn. rewrite Ascii.eqb_sym, Hac. reflexivity.
    + inversion IH as [|? ? Hf Hfs]; subst. constructor; [|exact Hfs].
      cbn [PyStr.contains PyStr.startswith]. rewrite Ascii.eqb_sym, Hac, Hf.
      reflexivity.
Qed.

(** ** Facts about the loops *)

Lemma extend_credentials_flat_map (cmd : list string)
    (credentials : list (string * string)) :
  extend_credentials cmd credentials = (cmd ++ flat_map credential_args credentials)%list.
Proof.
  unfold extend_credentials.
  assert (G : forall creds acc,
             fold_left
               (fun cmd '(credential_type, credential_data) =>
                  (cmd ++ ["--credential";
                           (credential_type ++ ":" ++ credential_data)%string])%list)
               creds acc
             = (acc ++ flat_map credential_args creds)%list).
  { induction creds as [|[t d] creds IH]; intros acc; simpl.
    - now rewrite app_nil_r.
    - rewrite IH. unfold credential_args at 2. simpl.
      now rewrite <- app_assoc. }
  destruct credentials as [|c credentials].
  - simpl. now rewrite app_nil_r.
  - apply G.
Qed.

Lemma artifacts_command_list (artifact_names : list string)
    (disk_path output_dir : string) (credentials : list (string * string)) :
  artifacts_command artifact_names disk_path output_dir credentials
  = (["image_export.py"; "--artifact_filters"; String.concat "," artifact_names;
      "--write"; output_dir; "--partitions"; "all"; "--volumes"; "all";
      "--unattended"]
     ++ flat_map credential_args credentials ++ [disk_path])%list.
Proof.
  unfold artifacts_command. rewrite extend_credentials_flat_map.
  rewrite join_is_concat. now rewrite <- app_assoc.
Qed.

Lemma files_command_list (file_name disk_path output_dir : string)
    (credentials : list (string * string)) :
  files_command file_name disk_path output_dir credentials
  = (["image_export.py"; "--name"; file_name; "--write"; output_dir;
      "--partitions"; "all"; "--volumes"; "all"]
     ++ flat_map credential_args credentials ++ [disk_path])%list.
Proof.
  unfold files_command. rewrite extend_credentials_flat_map.
  now rewrite <- app_assoc.
Qed.

Lemma collect_files_walked (walk : list (string * list string * list string)) :
  collect_files walk = walked_paths walk.
Proof.
  unfold collect_files, walked_paths.
  assert (Inner : forall dirpath filenames acc,
             fold_left
               (fun collected filename =>
                  (collected ++ [path_join dirpath filename])%list)
               filenames acc
             = (acc ++ map (path_join dirpath) filenames)%list).
  { intros dirpath filenames; induction filenames as [|f fs IH]; intros acc; simpl.
    - now rewrite app_nil_r.
    - rewrite IH. now rewrite <- app_assoc. }
  assert (Outer : forall (walk : list (string * list string * list string)) acc,
             fold_left
               (fun collected '(dirpath, _, filenames) =>
                  fold_left
                    (fun collected filename =>
                       (collected ++ [path_join dirpath filename])%list)
                    filenames collected)
               walk acc
             = (acc ++ flat_map
                         (fun '(dirpath, _, filenames) =>
                            map (path_join dirpath) filenames) walk)%list).
  { clear walk. induction walk as [|[[d ds] fs] walk IH]; intros acc; simpl.
    - now rewrite app_nil_r.
    - rewrite IH, Inner. now rewrite <- app_assoc. }
  apply (Outer walk []).
Qed.

(** When every line has a colon the loop never fails and keeps the
    pairs with a non-empty plaintext, in order. *)
Lemma parse_pot_lines_ok (lines : list string) (result : list (string * string)) :
  forallb has_colon lines = true ->
  parse_pot_lines lines result = inr (result ++ cracked_pairs lines)%list.
Proof.
  revert result; induction lines as [|line rest IH]; intros result H.
  - simpl. now rewrite app_nil_r.
  - cbn [forallb] in H. apply andb_true_iff in H as [Hl Hrest].
    cbn [parse_pot_lines cracked_pairs].
    destruct (rsplit1_cases ":" line) as [(h & t & Hcut & ->)|[Hcut _]].
    + rewrite Hcut.
      destruct (PyStr.truthy (PyStr.rstrip t)).
      * rewrite IH by assumption. now rewrite <- app_assoc.
      * now apply IH.
    + apply rcut_none_iff in Hcut. unfold has_colon in Hl. congruence.
Qed.

(** A line without a colon makes the loop raise [ValueError]. *)
Lemma parse_pot_lines_raises (lines : list string) (result : list (string * string)) :
  forallb has_colon lines = false ->
  parse_pot_lines lines result
  = inl (ValueError "not enough values to unpack (expected 2, got 1)").
Proof.
  revert result; induction lines as [|line rest IH]; intros result H; [discriminate|].
  cbn [forallb] in H. cbn [parse_pot_lines].
  destruct (rsplit1_cases ":" line) as [(h & t & Hcut & ->)|[Hcut ->]].
  - assert (Hl : has_colon line = true).
    { unfold has_colon. destruct (PyStr.contains ":" line) eqn:E; [reflexivity|].
      apply rcut_none_iff in E. congruence. }
    rewrite Hl in H. simpl in H.
    destruct (PyStr.truthy (PyStr.rstrip t)); now apply IH.
  - reflexivity.
Qed.

(** ** Properties of the module *)

Section Properties.

Variable expanduser : string -> string.
Variable gettempdir : string.
Variable temp_name : gmap string string -> string.
Variable run_process :
  list string -> Z -> gmap string string -> proc_outcome * gmap string string.
Variable ContainerManager_init : pyval -> option exception.
Variable container_run :
  pyval -> list string -> list string -> list string -> pyval ->
  gmap string string -> (exception + (string * string * Z)) * gmap string string.
Variable os_walk :
  gmap string string -> string -> list (string * list string * list string).
Variable str_subprocess_error : exception -> string.

Local Abbreviation image_export :=
  (_image_export run_process ContainerManager_init container_run os_walk
     str_subprocess_error).
Local Abbreviation artifacts :=
  (extract_artifacts run_process ContainerManager_init container_run os_walk
     str_subprocess_error).
Local Abbreviation extract :=
  (extract_files run_process ContainerManager_init container_run os_walk
     str_subprocess_error).
Local Abbreviation str_of := (str_exc str_subprocess_error).

(** *** The runner *)

Lemma dict_get_empty (k : string) : dict_get ∅ k = PNone.
Proof. unfold dict_get. now rewrite lookup_empty. Qed.

(** The image [_image_export] computes is the registry's: an empty
    entry has no image either way. *)
Lemma docker_image_lookup (w : World) :
  match dependencies w !! job_name with
  | Some entry => if dict_truthy entry then dict_get entry "docker_image" else PNone
  | None => PNone
  end = job_docker_image w.
Proof.
  unfold job_docker_image.
  destruct (dependencies w !! job_name) as [entry|]; [|reflexivity].
  unfold dict_truthy. case_bool_decide as E; simpl; [|reflexivity].
  subst entry. now rewrite dict_get_empty.
Qed.

Lemma image_export_local (command : list string) (output_dir disk_path : string)
    (timeout : Z) (w : World) :
  containerized w = false ->
  image_export command output_dir disk_path timeout w
  = local_result run_process os_walk str_subprocess_error
      command output_dir timeout w.
Proof.
  intros Hc. unfold _image_export, local_result.
  rewrite docker_image_lookup. fold (containerized w). rewrite Hc.
  unfold bind, catch, check_call, walk_output_dir, ret, raise.
  destruct (run_process ("sudo" :: command) timeout (files w)) as [outcome fs].
  destruct outcome as [rc| |err]; [|reflexivity|reflexivity].
  destruct (rc =? 0); [|reflexivity].
  simpl. now rewrite collect_files_walked.
Qed.

(** With docker enabled and an image registered the run ends in an
    exception before any container is started: either the manager
    cannot be built, or formatting the command list with [{0:s}]
    for the log line raises [TypeError]. *)
Lemma image_export_containerized (command : list string)
    (output_dir disk_path : string) (timeout : Z) (w : World) :
  containerized w = true ->
  image_export command output_dir disk_path timeout w
  = (inl (match ContainerManager_init (job_docker_image w) with
          | Some e => e
          | None => TypeError "unsupported format string passed to list.__format__"
          end), w).
Proof.
  intros Hc. unfold _image_export.
  rewrite docker_image_lookup. fold (containerized w). rewrite Hc.
  unfold bind, ContainerManager, raise, ret.
  destruct (ContainerManager_init (job_docker_image w)); reflexivity.
Qed.

(** C1: [extract_artifacts] builds [image_export.py --artifact_filters
    <names joined with commas> --write <output_dir> --partitions all
    --volumes all --unattended], then one [--credential type:data] pair
    per credential in order, then the disk path, and hands that list to
    the runner; [extract_files] builds the same with [--name <file_name>]
    for the artifact filters and without [--unattended], once its disk
    path check has passed. *)
Theorem extraction_commands (artifact_names : list string)
    (file_name disk_path output_dir : string)
    (credentials : list (string * string)) :
  artifacts_command artifact_names disk_path output_dir credentials
  = (["image_export.py"; "--artifact_filters"; String.concat "," artifact_names;
      "--write"; output_dir; "--partitions"; "all"; "--volumes"; "all";
      "--unattended"]
     ++ flat_map credential_args credentials ++ [disk_path])%list
  /\ files_command file_name disk_path output_dir credentials
     = (["image_export.py"; "--name"; file_name; "--write"; output_dir;
         "--partitions"; "all"; "--volumes"; "all"]
        ++ flat_map credential_args credentials ++ [disk_path])%list
  /\ artifacts artifact_names disk_path output_dir credentials
     = image_export
         (artifacts_command artifact_names disk_path output_dir credentials)
         output_dir disk_path DEFAULT_TIMEOUT
  /\ extract file_name disk_path output_dir credentials
     = if PyStr.truthy disk_path
       then image_export
              (files_command file_name disk_path output_dir credentials)
              output_dir disk_path DEFAULT_TIMEOUT
       else raise (TurbiniaException
                     "image_export.py failed: Attempted to run with no local_path").
Proof.
  repeat split.
  - apply artifacts_command_list.
  - apply files_command_list.
  - unfold extract_files. now destruct (PyStr.truthy disk_path).
Qed.

(** C5: on a local run a non-zero exit raises [TurbiniaException] with
    the message "image_export.py failed: " followed by the text of the
    underlying error, and a timeout raises [TurbiniaException] with
    "image_export.py timed out after <timeout>s: " followed by that
    text; both are the one exception type, and the two messages are
    never equal. *)
Theorem local_failures (command : list string) (output_dir disk_path : string)
    (timeout : Z) (w : World) :
  containerized w = false ->
  (forall rc fs,
      run_process ("sudo" :: command) timeout (files w) = (Exited rc, fs) ->
      rc <> 0 ->
      fst (image_export command output_dir disk_path timeout w)
      = inl (TurbiniaException
               ("image_export.py failed: "
                ++ str_of (CalledProcessError rc ("sudo" :: command)))))
  /\ (forall fs,
         run_process ("sudo" :: command) timeout (files w) = (TimedOut, fs) ->
         fst (image_export command output_dir disk_path timeout w)
         = inl (TurbiniaException
                  ("image_export.py timed out after " ++ pretty timeout ++ "s: "
                   ++ str_of (TimeoutExpired ("sudo" :: command) timeout))))
  /\ (forall failed timed_out : string,
         "image_export.py failed: " ++ failed
         <> "image_export.py timed out after " ++ timed_out).
Proof.
  intros Hc. rewrite (image_export_local _ _ _ _ _ Hc). unfold local_result.
  repeat split.
  - intros rc fs Hrun Hrc. rewrite Hrun.
    destruct (Z.eqb_spec rc 0); [contradiction|reflexivity].
  - intros fs Hrun. now rewrite Hrun.
  - intros failed timed_out H. cbv [String.append] in H. congruence.
Qed.

(** C6: [extract_files] with an empty disk path raises
    [TurbiniaException] "image_export.py failed: Attempted to run with
    no local_path" and leaves the world as it was: nothing has been
    launched. *)
Theorem extract_files_empty_disk_path (file_name output_dir : string)
    (credentials : list (string * string)) (w : World) :
  extract file_name "" output_dir credentials w
  = (inl (TurbiniaException
            "image_export.py failed: Attempted to run with no local_path"), w)
  /\ trace (snd (extract file_name "" output_dir credentials w)) = trace w.
Proof. split; reflexivity. Qed.

(** C8: a run that returns a list is a local run whose process exited
    with status 0, and the list is the paths of the walk of the output
    directory over the files the process left; such a run does return
    that list; and when the process fails, or the run is in a
    container, an exception comes back and no list. *)
Theorem extraction_result (command : list string) (output_dir disk_path : string)
    (timeout : Z) (w : World) :
  (forall paths w',
      image_export command output_dir disk_path timeout w = (inr paths, w') ->
      containerized w = false
      /\ run_process ("sudo" :: command) timeout (files w) = (Exited 0, files w')
      /\ paths = walked_paths (os_walk (files w') output_dir))
  /\ (forall fs,
         containerized w = false ->
         run_process ("sudo" :: command) timeout (files w) = (Exited 0, fs) ->
         fst (image_export command output_dir disk_path timeout w)
         = inr (walked_paths (os_walk fs output_dir)))
  /\ (containerized w = false ->
      fst (run_process ("sudo" :: command) timeout (files w)) <> Exited 0 ->
      exists e, fst (image_export command output_dir disk_path timeout w) = inl e)
  /\ (containerized w = true ->
      exists e, fst (image_export command output_dir disk_path timeout w) = inl e).
Proof.
  repeat split.
  - destruct (containerized w) eqn:Hc; [|reflexivity].
    rewrite (image_export_containerized _ _ _ _ _ Hc) in H. discriminate.
  - destruct (containerized w) eqn:Hc.
    { rewrite (image_export_containerized _ _ _ _ _ Hc) in H. discriminate. }
    rewrite (image_export_local _ _ _ _ _ Hc) in H. unfold local_result in H.
    destruct (run_process ("sudo" :: command) timeout (files w)) as [outcome fs].
    destruct outcome as [rc| |err]; try discriminate.
    destruct (Z.eqb_spec rc 0); [|discriminate].
    inversion H; subst. reflexivity.
  - destruct (containerized w) eqn:Hc.
    { rewrite (image_export_containerized _ _ _ _ _ Hc) in H. discriminate. }
    rewrite (image_export_local _ _ _ _ _ Hc) in H. unfold local_result in H.
    destruct (run_process ("sudo" :: command) timeout (files w)) as [outcome fs].
    destruct outcome as [rc| |err]; try discriminate.
    destruct (Z.eqb_spec rc 0); [|discriminate].
    inversion H; subst. reflexivity.
  - intros fs Hc Hrun. rewrite (image_export_local _ _ _ _ _ Hc).
    unfold local_result. now rewrite Hrun.
  - intros Hc Hrun. rewrite (image_export_local _ _ _ _ _ Hc).
    unfold local_result.
    destruct (run_process ("sudo" :: command) timeout (files w)) as [outcome fs].
    destruct outcome as [rc| |err]; simpl in *; eauto.
    destruct (Z.eqb_spec rc 0); [subst; contradiction|eauto].
  - intros Hc. rewrite (image_export_containerized _ _ _ _ _ Hc). simpl. eauto.
Qed.

(** C10: [extract_artifacts] has no disk path check: for every disk
    path it runs [_image_export] on the command it built; with the
    empty disk path and no container it launches [sudo image_export.py
    ...] with the empty string as last argument, where [extract_files]
    raises its "no local_path" error and launches nothing. *)
Theorem artifacts_skip_disk_path_check (artifact_names : list string)
    (output_dir : string) (credentials : list (string * string)) (w : World) :
  (forall disk_path,
      artifacts artifact_names disk_path output_dir credentials w
      = image_export
          (artifacts_command artifact_names disk_path output_dir credentials)
          output_dir disk_path DEFAULT_TIMEOUT w)
  /\ (containerized w = false ->
      trace (snd (artifacts artifact_names "" output_dir credentials w))
      = (trace w
         ++ [CheckCall
               (["sudo"; "image_export.py"; "--artifact_filters";
                 String.concat "," artifact_names; "--write"; output_dir;
                 "--partitions"; "all"; "--volumes"; "all"; "--unattended"]
                ++ flat_map credential_args credentials ++ [""])
               7200])%list)
  /\ (forall file_name,
         extract file_name "" output_dir credentials w
         = (inl (TurbiniaException
                   "image_export.py failed: Attempted to run with no local_path"),
            w)).
Proof.
  repeat split.
  intros Hc. unfold extract_artifacts.
  rewrite (image_export_local _ _ _ _ _ Hc). unfold local_result.
  rewrite artifacts_command_list.
  destruct (run_process _ _ _) as [outcome fs].
  destruct outcome as [rc| |err]; [destruct (rc =? 0)| |]; reflexivity.
Qed.

(** *** The cracker *)

Local Abbreviation prepare := (prepare_crack expanduser gettempdir temp_name).
Local Abbreviation cracker := (run_cracker run_process str_subprocess_error).
Local Abbreviation bruteforce :=
  (bruteforce_password_hashes expanduser gettempdir temp_name run_process
     str_subprocess_error).
Local Abbreviation written := (hashes_written temp_name).
Local Abbreviation wordlist_of := (password_list_path expanduser).
Local Abbreviation rules_of := (rules_path expanduser temp_name).

(** The preparation succeeds exactly when the resolved wordlist is a
    file, and then returns the selected tool for the resolved paths. *)
Lemma prepare_crack_unfold (password_hashes : list string)
    (tmp_dir extra_args : string) (w : World) :
  prepare password_hashes tmp_dir extra_args w
  = let w1 := written password_hashes w in
    if has_file w1 (wordlist_of w1) then
      (inr (select_tool expanduser password_hashes extra_args
              (hashcat_pot_file gettempdir tmp_dir) (temp_name (files w))
              (wordlist_of w1) (rules_of w1)),
       rules_written expanduser temp_name w1)
    else (inl (TurbiniaException "No password list available"), w1).
Proof.
  unfold prepare_crack, bind, write_temporary_file, resolve_password_list, bind,
    isfile, ret, raise.
  rewrite join_is_concat. fold (written password_hashes w).
  set (w1 := written password_hashes w).
  cbv zeta. unfold password_list_path, rules_path, rules_written, has_file.
  destruct (files w1 !! expanduser "~/password.lst") eqn:Euser; cbn [negb].
  - rewrite Euser. cbn [negb].
    destruct (files w1 !! expanduser "~/turbinia-password-cracking.rules");
      reflexivity.
  - destruct (files w1 !! "/usr/share/john/password.lst"); cbn [negb];
      [|reflexivity].
    destruct (files w1 !! expanduser "~/turbinia-password-cracking.rules");
      reflexivity.
Qed.

Lemma prepare_crack_trace (password_hashes : list string)
    (tmp_dir extra_args : string) (w : World) :
  trace (snd (prepare password_hashes tmp_dir extra_args w)) = trace w.
Proof.
  rewrite prepare_crack_unfold. cbv zeta.
  destruct (has_file _ _); [|reflexivity].
  unfold rules_written. now destruct (has_file _ _).
Qed.

(** The child that exits and the child the timer terminates both let
    the call go on; only a child that cannot be started is an error. *)
Lemma run_cracker_unfold (cmd : list string) (timeout : Z) (w : World) :
  cracker cmd timeout w
  = (match fst (run_process cmd timeout (files w)) with
     | NotStarted err =>
         inl (TurbiniaException (String.concat " " cmd ++ " failed: " ++ err))
     | Exited _ | TimedOut => inr tt
     end,
     set_files (snd (run_process cmd timeout (files w)))
       (log_event (Popen cmd timeout) w)).
Proof.
  unfold run_cracker, catch, popen_communicate, raise.
  destruct (run_process cmd timeout (files w)) as [outcome fs].
  destruct outcome; reflexivity.
Qed.

Lemma read_pot_file_absent (pot_file : string) (w : World) :
  has_file w pot_file = false -> read_pot_file pot_file w = (inr [], w).
Proof.
  unfold has_file, read_pot_file, bind, isfile.
  destruct (files w !! pot_file); [discriminate|reflexivity].
Qed.

Lemma read_pot_file_well_formed (pot_file content : string) (w : World) :
  files w !! pot_file = Some content ->
  forallb has_colon (PyStr.file_lines content) = true ->
  read_pot_file pot_file w
  = (inr (cracked_pairs (PyStr.file_lines content)),
     set_files (delete pot_file (files w)) w).
Proof.
  intros Hfile Hlines.
  unfold read_pot_file, bind, isfile, read_lines, lift, os_remove, ret.
  repeat (rewrite Hfile; cbv beta iota zeta).
  rewrite (parse_pot_lines_ok _ [] Hlines). cbv beta iota zeta.
  now rewrite Hfile.
Qed.

Lemma read_pot_file_malformed (pot_file content : string) (w : World) :
  files w !! pot_file = Some content ->
  forallb has_colon (PyStr.file_lines content) = false ->
  read_pot_file pot_file w
  = (inl (ValueError "not enough values to unpack (expected 2, got 1)"), w).
Proof.
  intros Hfile Hlines.
  unfold read_pot_file, bind, isfile, read_lines, lift, raise.
  repeat (rewrite Hfile; cbv beta iota zeta).
  now rewrite (parse_pot_lines_raises _ [] Hlines).
Qed.

Lemma read_pot_file_trace (pot_file : string) (w : World) :
  trace (snd (read_pot_file pot_file w)) = trace w.
Proof.
  destruct (files w !! pot_file) as [content|] eqn:Hfile.
  - destruct (forallb has_colon (PyStr.file_lines content)) eqn:Hlines.
    + now rewrite (read_pot_file_well_formed _ _ _ Hfile Hlines).
    + now rewrite (read_pot_file_malformed _ _ _ Hfile Hlines).
  - rewrite read_pot_file_absent; [reflexivity|].
    unfold has_file. now rewrite Hfile.
Qed.

Lemma bruteforce_unfold (password_hashes : list string) (tmp_dir : string)
    (timeout : Z) (extra_args : string) (w : World) :
  bruteforce password_hashes tmp_dir timeout extra_args w
  = match prepare password_hashes tmp_dir extra_args w with
    | (inl e, w1) => (inl e, w1)
    | (inr (cmd, pot_file), w1) =>
        match cracker cmd timeout w1 with
        | (inl e, w2) => (inl e, w2)
        | (inr _, w2) => read_pot_file pot_file w2
        end
    end.
Proof.
  unfold bruteforce_password_hashes, bind.
  destruct (prepare password_hashes tmp_dir extra_args w) as [[e|[cmd pot]] w1];
    reflexivity.
Qed.

(** Once the preparation has chosen a command, that command is the
    one thing the call launches. *)
Lemma bruteforce_launches (password_hashes : list string) (tmp_dir : string)
    (timeout : Z) (extra_args : string) (w : World)
    (cmd : list string) (pot_file : string) :
  fst (prepare password_hashes tmp_dir extra_args w) = inr (cmd, pot_file) ->
  trace (snd (bruteforce password_hashes tmp_dir timeout extra_args w))
  = (trace w ++ [Popen cmd timeout])%list.
Proof.
  intros Hprep. rewrite bruteforce_unfold.
  pose proof (prepare_crack_trace password_hashes tmp_dir extra_args w) as Htr.
  destruct (prepare password_hashes tmp_dir extra_args w) as [r w1].
  simpl in Hprep, Htr. subst r.
  rewrite run_cracker_unfold.
  destruct (fst (run_process cmd timeout (files w1))).
  - rewrite read_pot_file_trace. simpl. now rewrite Htr.
  - rewrite read_pot_file_trace. simpl. now rewrite Htr.
  - simpl. now rewrite Htr.
Qed.

(** What the call returns once the tool has run, by the state of the
    pot file: absent, or present with a colon on every line. *)
Lemma bruteforce_reads_pot_file (password_hashes : list string) (tmp_dir : string)
    (timeout : Z) (extra_args : string) (w w1 w2 : World)
    (cmd : list string) (pot_file : string) :
  prepare password_hashes tmp_dir extra_args w = (inr (cmd, pot_file), w1) ->
  cracker cmd timeout w1 = (inr tt, w2) ->
  (has_file w2 pot_file = false ->
   bruteforce password_hashes tmp_dir timeout extra_args w = (inr [], w2))
  /\ (forall content,
         files w2 !! pot_file = Some content ->
         forallb has_colon (PyStr.file_lines content) = true ->
         bruteforce password_hashes tmp_dir timeout extra_args w
         = (inr (cracked_pairs (PyStr.file_lines content)),
            set_files (delete pot_file (files w2)) w2)).
Proof.
  intros Hprep Hrun. rewrite bruteforce_unfold, Hprep, Hrun. split.
  - apply read_pot_file_absent.
  - intros content. apply read_pot_file_well_formed.
Qed.

(** C7: the wordlist is the user's [~/password.lst] when that is a
    file and [/usr/share/john/password.lst] otherwise, and the tool is
    launched on it; when neither is a file the call raises
    [TurbiniaException] "No password list available" having launched
    nothing. *)
Theorem wordlist_resolution (password_hashes : list string) (tmp_dir : string)
    (timeout : Z) (extra_args : string) (w : World) :
  let w1 := written password_hashes w in
  let user_list := expanduser "~/password.lst" in
  let system_list := "/usr/share/john/password.lst" in
  let launched_with password_list :=
    trace (snd (bruteforce password_hashes tmp_dir timeout extra_args w))
    = (trace w
       ++ [Popen
             (fst (select_tool expanduser password_hashes extra_args
                     (hashcat_pot_file gettempdir tmp_dir) (temp_name (files w))
                     password_list (rules_of w1)))
             timeout])%list in
  (has_file w1 user_list = true ->
   fst (resolve_password_list expanduser w1) = inr user_list
   /\ launched_with user_list)
  /\ (has_file w1 user_list = false -> has_file w1 system_list = true ->
      fst (resolve_password_list expanduser w1) = inr system_list
      /\ launched_with system_list)
  /\ (has_file w1 user_list = false -> has_file w1 system_list = false ->
      bruteforce password_hashes tmp_dir timeout extra_args w
      = (inl (TurbiniaException "No password list available"), w1)
      /\ trace w1 = trace w).
Proof.
  intros w1 user_list system_list launched_with.
  pose proof (prepare_crack_unfold password_hashes tmp_dir extra_args w) as Hprep.
  cbv zeta in Hprep. fold w1 in Hprep.
  assert (Hres : forall found, has_file w1 user_list = found ->
                   fst (resolve_password_list expanduser w1)
                   = inr (if found then user_list else system_list)
                   /\ wordlist_of w1 = if found then user_list else system_list).
  { intros found <-.
    unfold resolve_password_list, bind, isfile, ret, password_list_path, has_file.
    fold user_list. now destruct (files w1 !! user_list). }
  repeat split.
  - now apply (Hres true).
  - destruct (Hres true H) as [_ Hlist]. rewrite Hlist in Hprep.
    fold user_list in H. rewrite H in Hprep.
    unfold launched_with. apply bruteforce_launches with (pot_file := snd (select_tool expanduser password_hashes extra_args
                     (hashcat_pot_file gettempdir tmp_dir) (temp_name (files w))
                     user_list (rules_of w1))).
    rewrite Hprep. simpl. now destruct (select_tool _ _ _ _ _ _ _).
  - now apply (Hres false).
  - destruct (Hres false H) as [_ Hlist]. rewrite Hlist in Hprep.
    rewrite H0 in Hprep.
    unfold launched_with. apply bruteforce_launches with (pot_file := snd (select_tool expanduser password_hashes extra_args
                     (hashcat_pot_file gettempdir tmp_dir) (temp_name (files w))
                     system_list (rules_of w1))).
    rewrite Hprep. simpl. now destruct (select_tool _ _ _ _ _ _ _).
  - destruct (Hres false H) as [_ Hlist]. rewrite Hlist in Hprep.
    rewrite H0 in Hprep.
    rewrite bruteforce_unfold. now rewrite Hprep.
Qed.

(** C3, as amended: with a wordlist available, when some input hash
    contains the marker "$y$" the call launches [john --format=crypt
    --wordlist=<wordlist> <hash_file>] and reads john's own pot file;
    when the marker does not occur in the concatenation of the hashes
    it launches [hashcat --force -a 0], the extra arguments cut at
    every single space (none when the string is empty),
    [--potfile-path=<pot_file>], the hash file, the wordlist, [-r] and
    the rules file. Cutting at every space keeps empty fields: the
    fields joined with single spaces are the extra arguments again,
    and no field contains a space. *)
Theorem tool_selection (password_hashes : list string) (tmp_dir : string)
    (timeout : Z) (extra_args : string) (w : World) :
  let w1 := written password_hashes w in
  let password_list := wordlist_of w1 in
  let hash_file := temp_name (files w) in
  let rules_file := rules_of w1 in
  let pot_file := hashcat_pot_file gettempdir tmp_dir in
  let chosen cmd pot :=
    fst (prepare password_hashes tmp_dir extra_args w) = inr (cmd, pot)
    /\ trace (snd (bruteforce password_hashes tmp_dir timeout extra_args w))
       = (trace w ++ [Popen cmd timeout])%list in
  has_file w1 password_list = true ->
  (existsb (PyStr.contains "$y$") password_hashes = true ->
   chosen ["john"; "--format=crypt"; "--wordlist=" ++ password_list; hash_file]
     (expanduser "~/.john/john.pot"))
  /\ (PyStr.contains "$y$" (String.concat "" password_hashes) = false ->
      chosen
        (["hashcat"; "--force"; "-a"; "0"]
         ++ (if PyStr.truthy extra_args then PyStr.split " " extra_args else [])
         ++ [("--potfile-path=" ++ pot_file)%string; hash_file; password_list;
             "-r"; rules_file])%list
        pot_file)
  /\ String.concat " " (PyStr.split " " extra_args) = extra_args
  /\ Forall (fun field => PyStr.contains " " field = false)
       (PyStr.split " " extra_args).
Proof.
  intros w1 password_list hash_file rules_file pot_file chosen Hlist.
  pose proof (prepare_crack_unfold password_hashes tmp_dir extra_args w) as Hprep.
  cbv zeta in Hprep. fold w1 in Hprep. fold password_list in Hprep.
  rewrite Hlist in Hprep.
  assert (Hchosen : forall cmd pot,
             select_tool expanduser password_hashes extra_args pot_file hash_file
               password_list rules_file = (cmd, pot) -> chosen cmd pot).
  { intros cmd pot Hsel. unfold chosen.
    assert (Hfst : fst (prepare password_hashes tmp_dir extra_args w)
                   = inr (cmd, pot)).
    { rewrite Hprep. simpl. exact (f_equal inr Hsel). }
    split; [exact Hfst|]. now apply bruteforce_launches with (pot_file := pot). }
  split; [|split; [|split]].
  - intros Hmarker. apply Hchosen. unfold select_tool.
    now rewrite (contains_join_empty _ _ Hmarker).
  - intros Hmarker. apply Hchosen. unfold select_tool.
    rewrite join_is_concat, Hmarker.
    destruct (PyStr.truthy extra_args); cbv zeta;
      repeat rewrite <- app_assoc; reflexivity.
  - apply split_concat.
  - apply split_fields.
Qed.

(** C9: the loop over the pot file returns a result exactly when
    every line has a colon; when the tool has run and left a pot file
    with a line that has none, [bruteforce_password_hashes] ends in
    [ValueError] "not enough values to unpack (expected 2, got 1)",
    which is not the module's [TurbiniaException], and the pot file
    stays where it was. *)
Theorem pot_parsing_partial (password_hashes : list string) (tmp_dir : string)
    (timeout : Z) (extra_args : string) (w w1 w2 : World)
    (cmd : list string) (pot_file content : string) :
  prepare password_hashes tmp_dir extra_args w = (inr (cmd, pot_file), w1) ->
  cracker cmd timeout w1 = (inr tt, w2) ->
  files w2 !! pot_file = Some content ->
  forallb has_colon (PyStr.file_lines content) = false ->
  bruteforce password_hashes tmp_dir timeout extra_args w
  = (inl (ValueError "not enough values to unpack (expected 2, got 1)"), w2)
  /\ (forall lines result,
         (exists pairs, parse_pot_lines lines result = inr pairs)
         <-> forallb has_colon lines = true)
  /\ (forall message,
         ValueError "not enough values to unpack (expected 2, got 1)"
         <> TurbiniaException message).
Proof.
  intros Hprep Hrun Hfile Hlines. split; [|split].
  - rewrite bruteforce_unfold, Hprep, Hrun.
    now apply read_pot_file_malformed with (content := content).
  - intros lines result. split.
    + intros [pairs Hpairs].
      destruct (forallb has_colon lines) eqn:E; [reflexivity|].
      rewrite (parse_pot_lines_raises _ result E) in Hpairs. discriminate.
    + intros E. rewrite (parse_pot_lines_ok _ result E). eauto.
  - discriminate.
Qed.

End Properties.

(** ** Closed runs on the sample collaborators *)

(** On the local sample world a tool that exits with status 2 and a
    tool that runs into the timeout give the two messages. *)
Lemma local_failures_witness :
  containerized Sample.local_world = false
  /\ fst (Sample.image_export (Sample.ends (Exited 2)) ["image_export.py"; "/dev/sda"]
            "/out" "/dev/sda" 7200 Sample.local_world)
     = inl (TurbiniaException
              "image_export.py failed: Command returned non-zero exit status 2")
  /\ fst (Sample.image_export (Sample.ends TimedOut) ["image_export.py"; "/dev/sda"]
            "/out" "/dev/sda" 7200 Sample.local_world)
     = inl (TurbiniaException
              "image_export.py timed out after 7200s: Command timed out after 7200 seconds").
Proof.
  split; [reflexivity|]. split.
  - refine (proj1 (local_failures (Sample.ends (Exited 2))
                     Sample.ContainerManager_init Sample.container_run Sample.os_walk
                     Sample.str_subprocess_error ["image_export.py"; "/dev/sda"]
                     "/out" "/dev/sda" 7200 Sample.local_world _)
              2 (files Sample.local_world) _ _).
    + reflexivity.
    + reflexivity.
    + lia.
  - refine (proj1 (proj2 (local_failures (Sample.ends TimedOut)
                     Sample.ContainerManager_init Sample.container_run Sample.os_walk
                     Sample.str_subprocess_error ["image_export.py"; "/dev/sda"]
                     "/out" "/dev/sda" 7200 Sample.local_world _))
              (files Sample.local_world) _).
    + reflexivity.
    + reflexivity.
Defined.

(** A local run that exits with status 0 after writing one file
    returns the path of that file. *)
Lemma extraction_result_witness :
  fst (Sample.image_export (Sample.writes "/out/etc/passwd" "root:x:0:0" (Exited 0))
         ["image_export.py"; "/dev/sda"] "/out" "/dev/sda" 7200 Sample.local_world)
  = inr ["/out/etc/passwd"].
Proof.
  refine (proj1 (proj2 (extraction_result
                   (Sample.writes "/out/etc/passwd" "root:x:0:0" (Exited 0))
                   Sample.ContainerManager_init Sample.container_run Sample.os_walk
                   Sample.str_subprocess_error ["image_export.py"; "/dev/sda"]
                   "/out" "/dev/sda" 7200 Sample.local_world))
            (<["/out/etc/passwd" := "root:x:0:0"]> (files Sample.local_world)) _ _).
  - reflexivity.
  - reflexivity.
Defined.

(** With an empty disk path the artifact extraction still launches the
    tool. *)
Lemma artifacts_skip_disk_path_check_witness :
  trace (snd (Sample.artifacts (Sample.ends (Exited 0)) ["WindowsEventLogs"]
                "" "/out" [] Sample.local_world))
  = [CheckCall
       ["sudo"; "image_export.py"; "--artifact_filters"; "WindowsEventLogs";
        "--write"; "/out"; "--partitions"; "all"; "--volumes"; "all";
        "--unattended"; ""]
       7200].
Proof.
  refine (proj1 (proj2 (artifacts_skip_disk_path_check (Sample.ends (Exited 0))
                   Sample.ContainerManager_init Sample.container_run Sample.os_walk
                   Sample.str_subprocess_error ["WindowsEventLogs"] "/out" []
                   Sample.local_world)) _).
  reflexivity.
Defined.

(** The user's list wins when it is there, the system list is the
    fallback, and without either nothing is launched. *)
Lemma wordlist_resolution_witness :
  trace (snd (Sample.crack (Sample.ends (Exited 0)) ["5f4dcc3b5aa765d61d8327deb882cf99"]
                "" 300 "" Sample.both_lists_world))
  = [Popen
       ["hashcat"; "--force"; "-a"; "0"; "--potfile-path=/tmp/hashcat.pot";
        "/tmp/tmpa1"; "/home/turbinia/password.lst"; "-r"; "/tmp/tmpb2"]
       300]
  /\ trace (snd (Sample.crack (Sample.ends (Exited 0))
                   ["5f4dcc3b5aa765d61d8327deb882cf99"] "" 300 ""
                   Sample.local_world))
     = [Popen
          ["hashcat"; "--force"; "-a"; "0"; "--potfile-path=/tmp/hashcat.pot";
           "/tmp/tmpa1"; "/usr/share/john/password.lst"; "-r"; "/tmp/tmpb2"]
          300]
  /\ fst (Sample.crack (Sample.ends (Exited 0)) ["5f4dcc3b5aa765d61d8327deb882cf99"]
            "" 300 "" Sample.bare_world)
     = inl (TurbiniaException "No password list available").
Proof.
  split; [|split].
  - refine (proj2 (proj1 (wordlist_resolution Sample.expanduser Sample.gettempdir
                            Sample.temp_name (Sample.ends (Exited 0))
                            Sample.str_subprocess_error
                            ["5f4dcc3b5aa765d61d8327deb882cf99"] "" 300 ""
                            Sample.both_lists_world) _)).
    vm_compute; reflexivity.
  - refine (proj2 (proj1 (proj2 (wordlist_resolution Sample.expanduser
                            Sample.gettempdir Sample.temp_name
                            (Sample.ends (Exited 0)) Sample.str_subprocess_error
                            ["5f4dcc3b5aa765d61d8327deb882cf99"] "" 300 ""
                            Sample.local_world)) _ _)).
    + vm_compute; reflexivity.
    + vm_compute; reflexivity.
  - refine (f_equal fst
              (proj1 (proj2 (proj2 (wordlist_resolution Sample.expanduser
                            Sample.gettempdir Sample.temp_name
                            (Sample.ends (Exited 0)) Sample.str_subprocess_error
                            ["5f4dcc3b5aa765d61d8327deb882cf99"] "" 300 ""
                            Sample.bare_world)) _ _))).
    + vm_compute; reflexivity.
    + vm_compute; reflexivity.
Defined.

(** A yescrypt hash selects john; an MD5 hash selects hashcat, with the
    extra arguments cut at every space. *)
Lemma tool_selection_witness :
  fst (Sample.prepare ["$y$j9T$F5Jx5fExrKuPp53xLKQ..1$X3DX6M94c7o.9agCG9G317fhZg9SqC.5i5rd.RhAtQ7"]
         "" "" Sample.local_world)
  = inr (["john"; "--format=crypt"; "--wordlist=/usr/share/john/password.lst";
          "/tmp/tmpa1"], "/home/turbinia/.john/john.pot")
  /\ fst (Sample.prepare ["5f4dcc3b5aa765d61d8327deb882cf99"] "/var/tmp" "-O -w 3"
            Sample.local_world)
     = inr (["hashcat"; "--force"; "-a"; "0"; "-O"; "-w"; "3";
             "--potfile-path=/var/tmp/hashcat.pot"; "/tmp/tmpa1";
             "/usr/share/john/password.lst"; "-r"; "/tmp/tmpb2"],
            "/var/tmp/hashcat.pot").
Proof.
  split.
  - refine (proj1 (proj1 (tool_selection Sample.expanduser Sample.gettempdir
                            Sample.temp_name (Sample.ends (Exited 0))
                            Sample.str_subprocess_error
                            ["$y$j9T$F5Jx5fExrKuPp53xLKQ..1$X3DX6M94c7o.9agCG9G317fhZg9SqC.5i5rd.RhAtQ7"]
                            "" 300 "" Sample.local_world _) _)).
    + vm_compute; reflexivity.
    + vm_compute; reflexivity.
  - refine (proj1 (proj1 (proj2 (tool_selection Sample.expanduser Sample.gettempdir
                            Sample.temp_name (Sample.ends (Exited 0))
                            Sample.str_subprocess_error
                            ["5f4dcc3b5aa765d61d8327deb882cf99"]
                            "/var/tmp" 300 "-O -w 3" Sample.local_world _)) _)).
    + vm_compute; reflexivity.
    + vm_compute; reflexivity.
Defined.

(** C3 as stated fails twice. No hash of ["8743b52063cd84097a65d1633f5c74f5$y";
    "$1$28772684$iEwNOgGugqO9.bIz5sk8k/"] contains "$y$", which by the claim selects hashcat,
    but the marker spans the two in their concatenation and john is
    launched. And the extra arguments "-O  -w 3", with two spaces after
    [-O], give the three tokens [-O], [-w], [3] when split at
    whitespace, but hashcat is launched with an empty argument between
    [-O] and [-w]. *)
Lemma tool_selection_counterexample :
  (existsb (PyStr.contains "$y$")
     ["8743b52063cd84097a65d1633f5c74f5$y"; "$1$28772684$iEwNOgGugqO9.bIz5sk8k/"] = false
   /\ fst (Sample.prepare ["8743b52063cd84097a65d1633f5c74f5$y"; "$1$28772684$iEwNOgGugqO9.bIz5sk8k/"]
             "" "" Sample.local_world)
      = inr (["john"; "--format=crypt"; "--wordlist=/usr/share/john/password.lst";
              "/tmp/tmpa1"], "/home/turbinia/.john/john.pot")
   /\ fst (Sample.prepare ["8743b52063cd84097a65d1633f5c74f5$y"; "$1$28772684$iEwNOgGugqO9.bIz5sk8k/"]
             "" "" Sample.local_world)
      <> inr (claimed_select_tool "/home/turbinia/.john/john.pot"
                ["8743b52063cd84097a65d1633f5c74f5$y"; "$1$28772684$iEwNOgGugqO9.bIz5sk8k/"] ""
                "/tmp/hashcat.pot" "/tmp/tmpa1" "/usr/share/john/password.lst"
                "/tmp/tmpb2"))
  /\ (PyStr.split_whitespace "-O  -w 3" = ["-O"; "-w"; "3"]
      /\ fst (Sample.prepare ["5f4dcc3b5aa765d61d8327deb882cf99"] "" "-O  -w 3"
                Sample.local_world)
         = inr (["hashcat"; "--force"; "-a"; "0"; "-O"; ""; "-w"; "3";
                 "--potfile-path=/tmp/hashcat.pot"; "/tmp/tmpa1";
                 "/usr/share/john/password.lst"; "-r"; "/tmp/tmpb2"],
                "/tmp/hashcat.pot")
      /\ fst (Sample.prepare ["5f4dcc3b5aa765d61d8327deb882cf99"] "" "-O  -w 3"
                Sample.local_world)
         <> inr (claimed_select_tool "/home/turbinia/.john/john.pot"
                   ["5f4dcc3b5aa765d61d8327deb882cf99"] "-O  -w 3"
                   "/tmp/hashcat.pot" "/tmp/tmpa1" "/usr/share/john/password.lst"
                   "/tmp/tmpb2")).
Proof.
  repeat split; try (vm_compute; reflexivity); vm_compute; discriminate.
Qed.

(** A pot file whose second line was cut off before its colon makes
    the call end in [ValueError]. *)
Lemma pot_parsing_partial_witness :
  fst (Sample.crack
         (Sample.writes "/tmp/hashcat.pot"
            ("5f4dcc3b5aa765d61d8327deb882cf99:password"
             ++ String PyStr.LF "e10adc3949ba59abbe56e0")
            (Exited 0))
         ["5f4dcc3b5aa765d61d8327deb882cf99"; "e10adc3949ba59abbe56e057f20f883e"]
         "" 300 "" Sample.local_world)
  = inl (ValueError "not enough values to unpack (expected 2, got 1)").
Proof.
  refine (f_equal fst
            (proj1 (pot_parsing_partial Sample.expanduser Sample.gettempdir
                      Sample.temp_name
                      (Sample.writes "/tmp/hashcat.pot"
                         ("5f4dcc3b5aa765d61d8327deb882cf99:password"
                          ++ String PyStr.LF "e10adc3949ba59abbe56e0")
                         (Exited 0))
                      Sample.str_subprocess_error
                      ["5f4dcc3b5aa765d61d8327deb882cf99";
                       "e10adc3949ba59abbe56e057f20f883e"]
                      "" 300 "" Sample.local_world _ _ _ _ _ _ _ _ _))).
  - vm_compute; reflexivity.
  - vm_compute; reflexivity.
  - vm_compute; reflexivity.
  - vm_compute; reflexivity.
Defined.

(** C2 at a pot file the timer left half written: hashcat had stored
    one cracked hash and was terminated while writing the next line,
    before its colon. The call raises [ValueError] instead of returning
    the one pair, and the pot file is still there. *)
Lemma truncated_pot_file_raises :
  let run :=
    Sample.crack
      (Sample.writes "/tmp/hashcat.pot"
         ("5f4dcc3b5aa765d61d8327deb882cf99:password"
          ++ String PyStr.LF "e10adc3949ba59abbe56e0")
         TimedOut)
      ["5f4dcc3b5aa765d61d8327deb882cf99"; "e10adc3949ba59abbe56e057f20f883e"]
      "" 300 "" Sample.local_world in
  fst run = inl (ValueError "not enough values to unpack (expected 2, got 1)")
  /\ has_file (snd run) "/tmp/hashcat.pot" = true
  /\ cracked_pairs
       (PyStr.file_lines
          ("5f4dcc3b5aa765d61d8327deb882cf99:password"
           ++ String PyStr.LF "e10adc3949ba59abbe56e0"))
     = [("5f4dcc3b5aa765d61d8327deb882cf99", "password")].
Proof. repeat split; vm_compute; reflexivity. Qed.

(** C4 at a world with docker enabled, an image and a timeout of 600
    seconds registered for the job, and a container manager that would
    run the command: the call raises [TypeError] from formatting the
    command list for the log line, and no container has been started. *)
Lemma container_run_never_starts :
  containerized Sample.docker_world = true
  /\ job_timeout_override Sample.docker_world = PInt 600
  /\ Sample.image_export (Sample.ends (Exited 0))
       ["image_export.py"; "--name"; "NTUSER.DAT"; "--write"; "/out";
        "--partitions"; "all"; "--volumes"; "all"; "/dev/sda"]
       "/out" "/dev/sda" 7200 Sample.docker_world
     = (inl (TypeError "unsupported format string passed to list.__format__"),
        Sample.docker_world)
  /\ trace Sample.docker_world = [].
Proof. repeat split; vm_compute; reflexivity. Qed.

(** ** Further properties: [get_exe_path] *)

Lemma path_join_absolute (a b : string) :
  PyStr.startswith "/" b = true -> path_join a b = b.
Proof. intros H. unfold path_join. now rewrite H. Qed.

Lemma path_join_empty (b : string) : path_join "" b = b.
Proof. unfold path_join. now destruct (PyStr.startswith "/" b). Qed.

Lemma search_path_none (path_exists : string -> bool) (filename : string)
    (paths : list string) :
  search_path path_exists filename paths = None
  <-> Forall (fun dir => path_exists (path_join dir filename) = false) paths.
Proof.
  induction paths as [|dir rest IH]; cbn [search_path].
  - split; [constructor|reflexivity].
  - destruct (path_exists (path_join dir filename)) eqn:E.
    + split; [discriminate|]. intros H. inversion H; subst. congruence.
    + rewrite IH. split.
      * intros H. now constructor.
      * intros H. now inversion H.
Qed.

Lemma search_path_some (path_exists : string -> bool) (filename : string)
    (paths : list string) (binary : string) :
  search_path path_exists filename paths = Some binary
  <-> exists before dir after,
        paths = (before ++ dir :: after)%list
        /\ binary = path_join dir filename
        /\ path_exists binary = true
        /\ Forall (fun d => path_exists (path_join d filename) = false) before.
Proof.
  induction paths as [|dir rest IH]; cbn [search_path].
  - split; [discriminate|].
    intros (before & d & after & Hp & _). now destruct before.
  - destruct (path_exists (path_join dir filename)) eqn:E.
    + split.
      * intros H. inversion H; subst.
        exists [], dir, rest. repeat split; [exact E|constructor].
      * intros (before & d & after & Hp & -> & Hex & Hbefore).
        destruct before as [|b before]; simpl in Hp; inversion Hp; subst.
        -- reflexivity.
        -- inversion Hbefore; subst. congruence.
    + rewrite IH. split.
      * intros (before & d & after & -> & -> & Hex & Hbefore).
        exists (dir :: before), d, after. repeat split; [exact Hex|].
        now constructor.
      * intros (before & d & after & Hp & -> & Hex & Hbefore).
        destruct before as [|b before]; simpl in Hp; inversion Hp; subst.
        -- congruence.
        -- inversion Hbefore; subst. exists before, d, after. now repeat split.
Qed.

(** X1: with [PATH] set, [get_exe_path] returns the joined path of the
    first directory of [PATH], in order, under which the file exists,
    and [None] exactly when it exists under none of them. *)
Theorem get_exe_path_first_match (path_exists : string -> bool)
    (environ : gmap string string) (filename PATH : string) :
  environ !! "PATH" = Some PATH ->
  (forall binary,
      get_exe_path path_exists environ filename = inr (Some binary)
      <-> exists before dir after,
            PyStr.split ":" PATH = (before ++ dir :: after)%list
            /\ binary = path_join dir filename
            /\ path_exists binary = true
            /\ Forall (fun d => path_exists (path_join d filename) = false) before)
  /\ (get_exe_path path_exists environ filename = inr None
      <-> Forall (fun dir => path_exists (path_join dir filename) = false)
            (PyStr.split ":" PATH)).
Proof.
  intros Henv. unfold get_exe_path. rewrite Henv. split.
  - intros binary. rewrite <- search_path_some. unfold pathsep.
    split; [intros H; now inversion H|intros ->; reflexivity].
  - rewrite <- search_path_none. unfold pathsep.
    split; [intros H; now inversion H|intros ->; reflexivity].
Qed.

(** X2: for a file name that is an absolute path the directories of
    [PATH] play no part: the name itself is returned when it exists,
    and [None] otherwise, whatever [PATH] holds. *)
Theorem get_exe_path_absolute (path_exists : string -> bool)
    (environ : gmap string string) (filename PATH : string) :
  environ !! "PATH" = Some PATH ->
  PyStr.startswith "/" filename = true ->
  get_exe_path path_exists environ filename
  = inr (if path_exists filename then Some filename else None).
Proof.
  intros Henv Habs. unfold get_exe_path. rewrite Henv. f_equal.
  pose proof (split_nonempty pathsep PATH) as Hne.
  destruct (path_exists filename) eqn:E.
  - destruct (PyStr.split pathsep PATH) as [|dir rest]; [contradiction|].
    cbn [search_path]. rewrite (path_join_absolute dir filename Habs). now rewrite E.
  - apply search_path_none. apply Forall_forall. intros dir _.
    now rewrite (path_join_absolute dir filename Habs).
Qed.

(** X3: [get_exe_path] fails, with [KeyError] for "PATH", exactly when
    the environment has no [PATH]; with an empty [PATH] the bare file
    name is looked up, relative to the current directory. *)
Theorem get_exe_path_environment (path_exists : string -> bool)
    (environ : gmap string string) (filename : string) :
  (get_exe_path path_exists environ filename = inl (KeyError "PATH")
   <-> environ !! "PATH" = None)
  /\ ((exists e, get_exe_path path_exists environ filename = inl e)
      <-> environ !! "PATH" = None)
  /\ (environ !! "PATH" = Some "" ->
      get_exe_path path_exists environ filename
      = inr (if path_exists filename then Some filename else None)).
Proof.
  unfold get_exe_path. destruct (environ !! "PATH") as [PATH|].
  - repeat split; try discriminate.
    + intros [e He]. discriminate.
    + intros H. inversion H; subst. cbn. rewrite path_join_empty.
      now destruct (path_exists filename).
  - repeat split; try discriminate; eauto.
Qed.

Lemma get_exe_path_first_match_witness :
  get_exe_path SampleEnv.path_exists SampleEnv.environ "hashcat"
  = inr (Some "/usr/bin/hashcat").
Proof.
  refine (proj2 (proj1 (get_exe_path_first_match SampleEnv.path_exists
                          SampleEnv.environ "hashcat" "/usr/local/bin:/usr/bin" _)
                   "/usr/bin/hashcat") _).
  - vm_compute; reflexivity.
  - exists ["/usr/local/bin"], "/usr/bin", [].
    repeat split; [repeat constructor].
Defined.

Lemma get_exe_path_absolute_witness :
  get_exe_path SampleEnv.path_exists SampleEnv.environ "/opt/hashcat/hashcat"
  = inr (Some "/opt/hashcat/hashcat").
Proof.
  refine (get_exe_path_absolute SampleEnv.path_exists SampleEnv.environ
            "/opt/hashcat/hashcat" "/usr/local/bin:/usr/bin" _ _).
  - vm_compute; reflexivity.
  - reflexivity.
Defined.

Lemma get_exe_path_environment_witness :
  get_exe_path SampleEnv.path_exists SampleEnv.no_path "hashcat"
  = inl (KeyError "PATH")
  /\ get_exe_path SampleEnv.path_exists {[ "PATH" := "" ]} "john"
     = inr (Some "john").
Proof.
  split.
  - refine (proj2 (proj1 (get_exe_path_environment SampleEnv.path_exists
                            SampleEnv.no_path "hashcat")) _).
    vm_compute; reflexivity.
  - refine (proj2 (proj2 (get_exe_path_environment SampleEnv.path_exists
                            {[ "PATH" := "" ]} "john")) _).
    vm_compute; reflexivity.
Defined.

(** ** Further properties: the extraction runner *)

Section RunnerProperties.

Variable run_process :
  list string -> Z -> gmap string string -> proc_outcome * gmap string string.
Variable ContainerManager_init : pyval -> option exception.
Variable container_run :
  pyval -> list string -> list string -> list string -> pyval ->
  gmap string string -> (exception + (string * string * Z)) * gmap string string.
Variable os_walk :
  gmap string string -> string -> list (string * list string * list string).
Variable str_subprocess_error : exception -> string.

Local Abbreviation image_export :=
  (_image_export run_process ContainerManager_init container_run os_walk
     str_subprocess_error).
Local Abbreviation artifacts :=
  (extract_artifacts run_process ContainerManager_init container_run os_walk
     str_subprocess_error).
Local Abbreviation extract :=
  (extract_files run_process ContainerManager_init container_run os_walk
     str_subprocess_error).
Local Abbreviation run_locally :=
  (image_export_local run_process ContainerManager_init container_run os_walk
     str_subprocess_error).
Local Abbreviation run_in_container :=
  (image_export_containerized run_process ContainerManager_init container_run
     os_walk str_subprocess_error).


(** X5: the run is local when docker is disabled, when the registry
    has no entry for "fileartifactextractionjob", or when that entry
    has no "docker_image" key or holds [None] under it; in every other
    case, an image that is the empty string included, it is the
    container branch that is taken. *)
Theorem registry_decides_branch (w : World) :
  job_name = "fileartifactextractionjob"
  /\ (containerized w = false
      <-> DOCKER_ENABLED w = false
          \/ dependencies w !! job_name = None
          \/ exists entry,
               dependencies w !! job_name = Some entry
               /\ (entry !! "docker_image" = None
                   \/ entry !! "docker_image" = Some PNone))
  /\ (forall command output_dir disk_path timeout,
         containerized w = false ->
         image_export command output_dir disk_path timeout w
         = local_result run_process os_walk str_subprocess_error
             command output_dir timeout w)
  /\ (forall command output_dir disk_path timeout,
         containerized w = true ->
         snd (image_export command output_dir disk_path timeout w) = w).
Proof.
  split; [reflexivity|]. split; [|split].
  - unfold containerized, job_docker_image, dict_get. split.
    + intros H. destruct (DOCKER_ENABLED w); [|now left]. right.
      destruct (dependencies w !! job_name) as [entry|]; [|now left]. right.
      exists entry. split; [reflexivity|].
      destruct (entry !! "docker_image") as [v|]; [|now left]. right.
      destruct v; try discriminate. reflexivity.
    + intros [H|[H|(entry & He & [H|H])]].
      * now rewrite H.
      * rewrite H. now destruct (DOCKER_ENABLED w).
      * rewrite He, H. now destruct (DOCKER_ENABLED w).
      * rewrite He, H. now destruct (DOCKER_ENABLED w).
  - intros. now apply run_locally.
  - intros command output_dir disk_path timeout Hc.
    now rewrite (run_in_container _ _ _ _ _ Hc).
Qed.

(** X6: when the local process cannot be started at all, the
    [OSError] of [subprocess] leaves [_image_export] as it is, not
    wrapped in a [TurbiniaException], and no file list is returned. *)
Theorem launch_error_not_wrapped (command : list string)
    (output_dir disk_path : string) (timeout : Z) (w : World)
    (strerror : string) (fs : gmap string string) :
  containerized w = false ->
  run_process ("sudo" :: command) timeout (files w) = (NotStarted strerror, fs) ->
  fst (image_export command output_dir disk_path timeout w) = inl (OSError strerror)
  /\ forall message,
       fst (image_export command output_dir disk_path timeout w)
       <> inl (TurbiniaException message).
Proof.
  intros Hc Hrun. rewrite (run_locally _ _ _ _ _ Hc). unfold local_result.
  rewrite Hrun. split; [reflexivity|]. intros message. simpl. discriminate.
Qed.

(** X7: without a container, when [sudo image_export.py ...] exits
    with status 0, [extract_artifacts] and, for a non-empty disk path,
    [extract_files] launch their command with [DEFAULT_TIMEOUT], 7200
    seconds, and return the paths of the walk of the output directory
    over the files the tool left. *)
Theorem extraction_succeeds (artifact_names : list string)
    (file_name disk_path output_dir : string)
    (credentials : list (string * string)) (w : World)
    (fs : gmap string string) :
  containerized w = false ->
  (run_process
     ("sudo" :: artifacts_command artifact_names disk_path output_dir credentials)
     7200 (files w) = (Exited 0, fs) ->
   artifacts artifact_names disk_path output_dir credentials w
   = (inr (walked_paths (os_walk fs output_dir)),
      set_files fs
        (log_event
           (CheckCall
              ("sudo" :: artifacts_command artifact_names disk_path output_dir
                           credentials) 7200) w)))
  /\ (PyStr.truthy disk_path = true ->
      run_process
        ("sudo" :: files_command file_name disk_path output_dir credentials)
        7200 (files w) = (Exited 0, fs) ->
      extract file_name disk_path output_dir credentials w
      = (inr (walked_paths (os_walk fs output_dir)),
         set_files fs
           (log_event
              (CheckCall
                 ("sudo" :: files_command file_name disk_path output_dir
                              credentials) 7200) w))).
Proof.
  intros Hc. split.
  - intros Hrun. unfold extract_artifacts.
    rewrite (run_locally _ _ _ _ _ Hc). unfold local_result, DEFAULT_TIMEOUT.
    now rewrite Hrun.
  - intros Hdisk Hrun. unfold extract_files. rewrite Hdisk. cbn [negb].
    rewrite (run_locally _ _ _ _ _ Hc). unfold local_result, DEFAULT_TIMEOUT.
    now rewrite Hrun.
Qed.

End RunnerProperties.


(** Docker is enabled but the entry of the job has only a timeout:
    the run is local. *)
Lemma registry_decides_branch_witness :
  containerized SampleEnv.no_image_world = false
  /\ fst (Sample.image_export (Sample.writes "/out/etc/passwd" "root:x:0:0" (Exited 0))
            ["image_export.py"; "/dev/sda"] "/out" "/dev/sda" 60
            SampleEnv.no_image_world)
     = inr ["/out/etc/passwd"].
Proof.
  assert (Hlocal : containerized SampleEnv.no_image_world = false).
  { refine (proj2 (proj1 (proj2 (registry_decides_branch
                                   (Sample.ends (Exited 0))
                                   Sample.ContainerManager_init Sample.container_run
                                   Sample.os_walk Sample.str_subprocess_error
                                   SampleEnv.no_image_world))) _).
    right. right. exists {[ "timeout" := PInt 600 ]}.
    split; [vm_compute; reflexivity|]. left. vm_compute; reflexivity. }
  split; [exact Hlocal|]. unfold Sample.image_export.
  rewrite (proj1 (proj2 (proj2 (registry_decides_branch
                                  (Sample.writes "/out/etc/passwd" "root:x:0:0"
                                     (Exited 0))
                                  Sample.ContainerManager_init Sample.container_run
                                  Sample.os_walk Sample.str_subprocess_error
                                  SampleEnv.no_image_world)))
             ["image_export.py"; "/dev/sda"] "/out" "/dev/sda" 60 Hlocal).
  vm_compute; reflexivity.
Defined.

Lemma launch_error_not_wrapped_witness :
  fst (Sample.image_export
         (Sample.ends (NotStarted "[Errno 2] No such file or directory: 'sudo'"))
         ["image_export.py"; "/dev/sda"] "/out" "/dev/sda" 60 Sample.local_world)
  = inl (OSError "[Errno 2] No such file or directory: 'sudo'").
Proof.
  refine (proj1 (launch_error_not_wrapped
                   (Sample.ends (NotStarted "[Errno 2] No such file or directory: 'sudo'"))
                   Sample.ContainerManager_init Sample.container_run Sample.os_walk
                   Sample.str_subprocess_error ["image_export.py"; "/dev/sda"]
                   "/out" "/dev/sda" 60 Sample.local_world
                   "[Errno 2] No such file or directory: 'sudo'"
                   (files Sample.local_world) _ _)).
  - reflexivity.
  - reflexivity.
Defined.

Lemma extraction_succeeds_witness :
  fst (Sample.artifacts (Sample.writes "/out/etc/passwd" "root:x:0:0" (Exited 0))
         ["UnixPasswdFile"] "/dev/sda" "/out" [("password", "hunter2")]
         Sample.local_world)
  = inr ["/out/etc/passwd"]
  /\ fst (extract_files (Sample.writes "/out/etc/passwd" "root:x:0:0" (Exited 0))
            Sample.ContainerManager_init Sample.container_run Sample.os_walk
            Sample.str_subprocess_error "passwd" "/dev/sda" "/out" []
            Sample.local_world)
     = inr ["/out/etc/passwd"].
Proof.
  split.
  - refine (f_equal fst
              (proj1 (extraction_succeeds
                        (Sample.writes "/out/etc/passwd" "root:x:0:0" (Exited 0))
                        Sample.ContainerManager_init Sample.container_run
                        Sample.os_walk Sample.str_subprocess_error
                        ["UnixPasswdFile"] "" "/dev/sda" "/out"
                        [("password", "hunter2")] Sample.local_world
                        (<["/out/etc/passwd" := "root:x:0:0"]>
                           (files Sample.local_world)) _) _)).
    + reflexivity.
    + reflexivity.
  - refine (f_equal fst
              (proj2 (extraction_succeeds
                        (Sample.writes "/out/etc/passwd" "root:x:0:0" (Exited 0))
                        Sample.ContainerManager_init Sample.container_run
                        Sample.os_walk Sample.str_subprocess_error
                        [] "passwd" "/dev/sda" "/out" [] Sample.local_world
                        (<["/out/etc/passwd" := "root:x:0:0"]>
                           (files Sample.local_world)) _) _ _)).
    + reflexivity.
    + reflexivity.
    + reflexivity.
Defined.

(** ** Further properties: the cracker *)





(** The marker spans the boundary of two adjacent hashes. *)
Lemma marker_across_boundary (x z : string) :
  PyStr.contains "$y$" (String.concat "" [x ++ "$y"; "$" ++ z]) = true.
Proof.
  induction x as [|a x IH]; [reflexivity|].
  change (String.concat "" [String a x ++ "$y"; "$" ++ z])
    with (String a (String.concat "" [x ++ "$y"; "$" ++ z])).
  cbn [PyStr.contains]. rewrite IH. apply orb_true_r.
Qed.


(** X9: john is selected exactly when the marker "$y$" occurs in the
    hashes put end to end, hashcat otherwise; two adjacent hashes, the
    first ending in "$y" and the second starting with "$", select john
    whatever else they hold. *)
Theorem john_selected_by_concatenation (expanduser : string -> string)
    (password_hashes : list string)
    (extra_args pot_file hash_file password_list rules_file : string) :
  let selected :=
    select_tool expanduser password_hashes extra_args pot_file hash_file
      password_list rules_file in
  (PyStr.contains "$y$" (String.concat "" password_hashes) = true
   <-> hd "" (fst selected) = "john")
  /\ (PyStr.contains "$y$" (String.concat "" password_hashes) = false
      <-> hd "" (fst selected) = "hashcat")
  /\ snd selected
     = (if PyStr.contains "$y$" (String.concat "" password_hashes)
        then expanduser "~/.john/john.pot" else pot_file)
  /\ (forall x z,
         hd "" (fst (select_tool expanduser [x ++ "$y"; "$" ++ z] extra_args
                       pot_file hash_file password_list rules_file))
         = "john").
Proof.
  cbv zeta. unfold select_tool.
  change (PyStr.join "" password_hashes)
    with (String.concat "" password_hashes).
  split; [|split; [|split]].
  - destruct (PyStr.contains "$y$" (String.concat "" password_hashes)).
    + split; reflexivity.
    + destruct (PyStr.truthy extra_args); split; discriminate.
  - destruct (PyStr.contains "$y$" (String.concat "" password_hashes)).
    + split; discriminate.
    + destruct (PyStr.truthy extra_args); split; reflexivity.
  - destruct (PyStr.contains "$y$" (String.concat "" password_hashes));
      [reflexivity|]. now destruct (PyStr.truthy extra_args).
  - intros x z.
    change (PyStr.join "" [x ++ "$y"; "$" ++ z])
      with (String.concat "" [x ++ "$y"; "$" ++ z]).
    now rewrite marker_across_boundary.
Qed.


Section CrackerProperties.

Variable expanduser : string -> string.
Variable gettempdir : string.
Variable temp_name : gmap string string -> string.
Variable run_process :
  list string -> Z -> gmap string string -> proc_outcome * gmap string string.
Variable str_subprocess_error : exception -> string.

Local Abbreviation prepare := (prepare_crack expanduser gettempdir temp_name).
Local Abbreviation cracker := (run_cracker run_process str_subprocess_error).
Local Abbreviation bruteforce :=
  (bruteforce_password_hashes expanduser gettempdir temp_name run_process
     str_subprocess_error).
Local Abbreviation unfold_call :=
  (bruteforce_unfold expanduser gettempdir temp_name run_process
     str_subprocess_error).
Local Abbreviation unfold_cracker :=
  (run_cracker_unfold run_process str_subprocess_error).


(** X11: the exit status of the cracking tool is never looked at: a
    tool that exits with any status and a tool that the timer
    terminates give the result of reading the pot file among the files
    the tool left, and nothing else. *)
Theorem cracker_exit_status_ignored (password_hashes : list string)
    (tmp_dir : string) (timeout : Z) (extra_args : string) (w w1 : World)
    (cmd : list string) (pot_file : string)
    (outcome : proc_outcome) (fs : gmap string string) :
  prepare password_hashes tmp_dir extra_args w = (inr (cmd, pot_file), w1) ->
  run_process cmd timeout (files w1) = (outcome, fs) ->
  (forall strerror, outcome <> NotStarted strerror) ->
  bruteforce password_hashes tmp_dir timeout extra_args w
  = read_pot_file pot_file (set_files fs (log_event (Popen cmd timeout) w1)).
Proof.
  intros Hprep Hrun Hstarted. rewrite unfold_call, Hprep, unfold_cracker, Hrun.
  destruct outcome as [rc| |strerror]; try reflexivity.
  now destruct (Hstarted strerror).
Qed.

(** X12: once the tool has run, a call that finds no pot file returns
    the empty list and changes nothing; a call that finds a pot file
    with a colon on every line returns its pairs in file order and
    removes the pot file and no other file. *)
Theorem pot_file_harvest (password_hashes : list string) (tmp_dir : string)
    (timeout : Z) (extra_args : string) (w w1 w2 : World)
    (cmd : list string) (pot_file : string) :
  prepare password_hashes tmp_dir extra_args w = (inr (cmd, pot_file), w1) ->
  cracker cmd timeout w1 = (inr tt, w2) ->
  (has_file w2 pot_file = false ->
   bruteforce password_hashes tmp_dir timeout extra_args w = (inr [], w2))
  /\ (forall content,
         files w2 !! pot_file = Some content ->
         forallb has_colon (PyStr.file_lines content) = true ->
         exists w3,
           bruteforce password_hashes tmp_dir timeout extra_args w
           = (inr (cracked_pairs (PyStr.file_lines content)), w3)
           /\ files w3 !! pot_file = None
           /\ (forall path, path <> pot_file -> files w3 !! path = files w2 !! path)
           /\ trace w3 = trace w2).
Proof.
  intros Hprep Hrun. rewrite unfold_call, Hprep, Hrun. split.
  - apply read_pot_file_absent.
  - intros content Hfile Hlines.
    exists (set_files (delete pot_file (files w2)) w2).
    split; [now apply read_pot_file_well_formed|]. cbn [files set_files trace].
    split; [apply lookup_delete_eq|]. split; [|reflexivity].
    intros path Hne. now apply lookup_delete_ne.
Qed.

(** X13: when the temporary names are fresh, as [tempfile] makes them,
    the preparation keeps every file that was there, with its content,
    leaves the hash file holding the hashes joined by newlines, with no
    newline after the last, and launches nothing; this also holds when
    it fails for lack of a wordlist. *)
Theorem prepare_keeps_files (password_hashes : list string)
    (tmp_dir extra_args : string) (w : World) :
  let w1 := hashes_written temp_name password_hashes w in
  let after := snd (prepare password_hashes tmp_dir extra_args w) in
  files w !! temp_name (files w) = None ->
  files w1 !! temp_name (files w1) = None ->
  (forall path content,
      files w !! path = Some content -> files after !! path = Some content)
  /\ files after !! temp_name (files w)
     = Some (String.concat (String PyStr.LF "") password_hashes)
  /\ trace after = trace w.
Proof.
  intros w1 after Hfresh Hfresh1.
  assert (Hhash : files w1 !! temp_name (files w)
                  = Some (String.concat (String PyStr.LF "") password_hashes)).
  { unfold w1, hashes_written. cbn [files set_files]. apply lookup_insert_eq. }
  assert (Hkept : forall path content,
             files w !! path = Some content -> files w1 !! path = Some content).
  { intros path content Hpath. unfold w1, hashes_written. cbn [files set_files].
    rewrite lookup_insert_ne; [exact Hpath|]. intros E. congruence. }
  assert (Hrules : forall path content,
             files w1 !! path = Some content ->
             files (rules_written expanduser temp_name w1) !! path = Some content).
  { intros path content Hpath. unfold rules_written.
    destruct (has_file w1 _); [exact Hpath|]. cbn [files set_files].
    rewrite lookup_insert_ne; [exact Hpath|]. intros E. congruence. }
  unfold after. rewrite prepare_crack_unfold. cbv zeta. fold w1.
  destruct (has_file w1 (password_list_path expanduser w1)); cbn [snd].
  - split; [|split].
    + intros path content Hpath. apply Hrules. now apply Hkept.
    + now apply Hrules.
    + unfold rules_written. now destruct (has_file w1 _).
  - split; [|split]; [exact Hkept|exact Hhash|reflexivity].
Qed.

(** X14: with a wordlist available and no user rules file, the
    preparation writes a new temporary file holding the two rules ":"
    and "d", one per line, whichever tool is then selected, and that
    file is the rules file; with a user rules file it writes nothing
    beyond the hash file and the user's file is the rules file. *)
Theorem rules_file_synthesis (password_hashes : list string)
    (tmp_dir extra_args : string) (w : World) :
  let w1 := hashes_written temp_name password_hashes w in
  let after := snd (prepare password_hashes tmp_dir extra_args w) in
  let user_rules := expanduser "~/turbinia-password-cracking.rules" in
  has_file w1 (password_list_path expanduser w1) = true ->
  (has_file w1 user_rules = false ->
   rules_path expanduser temp_name w1 = temp_name (files w1)
   /\ files after !! temp_name (files w1) = Some (":" ++ String PyStr.LF "d")
   /\ forall path, path <> temp_name (files w1) ->
                   files after !! path = files w1 !! path)
  /\ (has_file w1 user_rules = true ->
      rules_path expanduser temp_name w1 = user_rules
      /\ files after = files w1).
Proof.
  intros w1 after user_rules Hlist. unfold after.
  rewrite prepare_crack_unfold. cbv zeta. fold w1. rewrite Hlist. cbn [snd].
  unfold rules_written, rules_path. fold user_rules. split; intros Hrules;
    rewrite Hrules.
  - cbn [files set_files]. split; [reflexivity|]. split.
    + apply lookup_insert_eq.
    + intros path Hne. now apply lookup_insert_ne.
  - split; reflexivity.
Qed.

End CrackerProperties.

(** ** Further properties: the walk *)

(** X15: the paths [_image_export] collects are exactly the joins of
    a directory of the walk with one of its file names; the names of
    sub-directories are not among them unless they are file names too,
    and their number is the number of file names of the walk. *)
Theorem collected_paths (walk : list (string * list string * list string)) :
  (forall path,
      In path (collect_files walk)
      <-> exists dirpath dirnames filenames filename,
            In (dirpath, dirnames, filenames) walk
            /\ In filename filenames
            /\ path = path_join dirpath filename)
  /\ length (collect_files walk)
     = list_sum (map (fun '(_, _, filenames) => length filenames) walk)
  /\ (forall triples,
         map (fun '(dirpath, _, filenames) => (dirpath, filenames)) triples
         = map (fun '(dirpath, _, filenames) => (dirpath, filenames)) walk ->
         collect_files triples = collect_files walk).
Proof.
  rewrite collect_files_walked. unfold walked_paths. split; [|split].
  - intros path. rewrite in_flat_map. split.
    + intros ([[dirpath dirnames] filenames] & Hin & Hpath).
      apply in_map_iff in Hpath as (filename & <- & Hfile).
      now exists dirpath, dirnames, filenames, filename.
    + intros (dirpath & dirnames & filenames & filename & Hin & Hfile & ->).
      exists (dirpath, dirnames, filenames). split; [exact Hin|].
      apply in_map_iff. now exists filename.
  - induction walk as [|[[dirpath dirnames] filenames] walk IH]; [reflexivity|].
    cbn [flat_map map list_sum]. rewrite length_app, length_map. now rewrite IH.
  - intros triples Hsame. rewrite collect_files_walked. unfold walked_paths.
    revert walk Hsame.
    induction triples as [|[[d ds] fs] triples IH]; intros walk Hsame.
    + destruct walk; [reflexivity|discriminate].
    + destruct walk as [|[[d' ds'] fs'] walk]; [discriminate|].
      cbn [map] in Hsame. inversion Hsame; subst.
      cbn [flat_map]. f_equal. now apply IH.
Qed.

(** ** Closed runs for the cracker properties *)


(** A hashcat that exits with status 1 after cracking one hash still
    has its pot file read. *)
Lemma cracker_exit_status_ignored_witness :
  fst (Sample.crack
         (Sample.writes "/tmp/hashcat.pot"
            ("5f4dcc3b5aa765d61d8327deb882cf99:password" ++ String PyStr.LF "")
            (Exited 1))
         ["5f4dcc3b5aa765d61d8327deb882cf99"] "" 300 "" Sample.local_world)
  = inr [("5f4dcc3b5aa765d61d8327deb882cf99", "password")].
Proof.
  refine (eq_trans
            (f_equal fst
               (cracker_exit_status_ignored Sample.expanduser Sample.gettempdir
                  Sample.temp_name
                  (Sample.writes "/tmp/hashcat.pot"
                     ("5f4dcc3b5aa765d61d8327deb882cf99:password"
                      ++ String PyStr.LF "")
                     (Exited 1))
                  Sample.str_subprocess_error
                  ["5f4dcc3b5aa765d61d8327deb882cf99"] "" 300 ""
                  Sample.local_world
                  (snd (Sample.prepare ["5f4dcc3b5aa765d61d8327deb882cf99"]
                          "" "" Sample.local_world))
                  ["hashcat"; "--force"; "-a"; "0";
                   "--potfile-path=/tmp/hashcat.pot"; "/tmp/tmpa1";
                   "/usr/share/john/password.lst"; "-r"; "/tmp/tmpb2"]
                  "/tmp/hashcat.pot" (Exited 1)
                  (<["/tmp/hashcat.pot" :=
                       "5f4dcc3b5aa765d61d8327deb882cf99:password"
                       ++ String PyStr.LF ""]>
                     (files (snd (Sample.prepare
                                    ["5f4dcc3b5aa765d61d8327deb882cf99"]
                                    "" "" Sample.local_world))))
                  _ _ _)) _).
  - vm_compute; reflexivity.
  - vm_compute; reflexivity.
  - discriminate.
  - vm_compute; reflexivity.
Defined.

Lemma pot_file_harvest_witness :
  Sample.crack (Sample.ends TimedOut) ["5f4dcc3b5aa765d61d8327deb882cf99"] "" 300 ""
    Sample.local_world
  = (inr [],
     snd (Sample.crack (Sample.ends TimedOut) ["5f4dcc3b5aa765d61d8327deb882cf99"]
            "" 300 "" Sample.local_world)).
Proof.
  refine (proj1 (pot_file_harvest Sample.expanduser Sample.gettempdir
                   Sample.temp_name (Sample.ends TimedOut)
                   Sample.str_subprocess_error
                   ["5f4dcc3b5aa765d61d8327deb882cf99"] "" 300 ""
                   Sample.local_world
                   (snd (Sample.prepare ["5f4dcc3b5aa765d61d8327deb882cf99"]
                           "" "" Sample.local_world))
                   (snd (Sample.crack (Sample.ends TimedOut)
                           ["5f4dcc3b5aa765d61d8327deb882cf99"] "" 300 ""
                           Sample.local_world))
                   ["hashcat"; "--force"; "-a"; "0";
                    "--potfile-path=/tmp/hashcat.pot"; "/tmp/tmpa1";
                    "/usr/share/john/password.lst"; "-r"; "/tmp/tmpb2"]
                   "/tmp/hashcat.pot" _ _) _).
  - vm_compute; reflexivity.
  - vm_compute; reflexivity.
  - vm_compute; reflexivity.
Defined.

Lemma prepare_keeps_files_witness :
  files (snd (Sample.prepare ["5f4dcc3b5aa765d61d8327deb882cf99";
                              "e10adc3949ba59abbe56e057f20f883e"] "" ""
                Sample.local_world))
  !! "/tmp/tmpa1"
  = Some ("5f4dcc3b5aa765d61d8327deb882cf99"
          ++ String PyStr.LF "e10adc3949ba59abbe56e057f20f883e").
Proof.
  refine (proj1 (proj2 (prepare_keeps_files Sample.expanduser Sample.gettempdir
                          Sample.temp_name
                          ["5f4dcc3b5aa765d61d8327deb882cf99";
                           "e10adc3949ba59abbe56e057f20f883e"] "" ""
                          Sample.local_world _ _))).
  - vm_compute; reflexivity.
  - vm_compute; reflexivity.
Defined.

Lemma rules_file_synthesis_witness :
  files (snd (Sample.prepare ["$y$j9T$F5Jx5fExrKuPp53xLKQ..1$X3DX6M94c7o"] "" ""
                Sample.local_world))
  !! "/tmp/tmpb2"
  = Some (":" ++ String PyStr.LF "d").
Proof.
  refine (proj1 (proj2 (proj1 (rules_file_synthesis Sample.expanduser
                                 Sample.gettempdir Sample.temp_name
                                 ["$y$j9T$F5Jx5fExrKuPp53xLKQ..1$X3DX6M94c7o"] "" ""
                                 Sample.local_world _) _))).
  - vm_compute; reflexivity.
  - vm_compute; reflexivity.
Defined.

Lemma collected_paths_witness :
  collect_files [("/out", ["etc"; "passwd"], []); ("/out/etc", [], ["passwd"])]
  = collect_files [("/out", [], []); ("/out/etc", [], ["passwd"])].
Proof.
  refine (proj2 (proj2 (collected_paths
                          [("/out", [], []); ("/out/etc", [], ["passwd"])]))
            [("/out", ["etc"; "passwd"], []); ("/out/etc", [], ["passwd"])] _).
  reflexivity.
Defined.
